(** * Access-gated mailbox provisioning bot (src/app.py)

    A shallow embedding of the handlers of [src/app.py] and the properties
    of the provisioning workflow.

    The two SQL tables are lists of rows in insertion order, the external
    collaborators (membership oracle, mailbox provider, chat transport,
    clock, random source) are the fields of an environment record, and every
    handler is a computation in a state-and-exception monad whose state holds
    the database, the chronological trace of observable effects and the
    number of random draws consumed.

    Modelling conventions:
    - [session.add(x); session.commit()] and [x.attr = v; session.commit()]
      are one store primitive each: the source never raises between the two
      statements.
    - The database itself is reachable; of its errors only the violation of
      a [unique=True] column is modelled.
    - Calls into the chat transport succeed, except [bot.send_message] in
      [notify_all], which the source guards with [try]/[except]; what can
      fail before the call is made is modelled: an attribute of [None], or
      an attribute the object does not have.
    - The reply in the [else] branch of [start] lacks its closing
      parenthesis in the source (lines 80-83), so the file as it stands is
      not accepted by Python.  The handlers are modelled from their text,
      and that one call as the call its three lines spell out.  What is
      proved of [start] concerns its store writes, its member branch and
      what it never does, all of which precede that call. *)

From Stdlib Require Import ZArith List String Ascii Bool Lia DecimalString.
From Stdlib Require DecimalZ.
Import ListNotations.

Open Scope string_scope.
Open Scope Z_scope.

(** ** Data model *)

(** [class User(Base)], table [users]. *)
Record User : Type := mkUser {
  id : Z;               (* primary key *)
  telegram_id : Z;      (* unique *)
  join_date : Z;        (* default = datetime.utcnow *)
  is_verified : bool    (* default = False *)
}.

(** [class EmailAccount(Base)], table [emails]. *)
Record EmailAccount : Type := mkEmailAccount {
  email_id : Z;         (* primary key [id] *)
  user_id : Z;
  email : string;       (* unique *)
  password : string;
  created_at : Z        (* default = datetime.utcnow *)
}.

Record Db : Type := mkDb {
  users : list User;
  emails : list EmailAccount
}.

(** Environment variables read at import time; [os.environ.get] yields
    [None] for an unset variable. *)
Record Config : Type := mkConfig {
  ADMIN_ID : option string;
  CHANNEL_ID : option string
}.

(** Python exceptions that the handlers can meet. *)
Inductive Exc : Type :=
| AttributeError
| IndexError
| IntegrityError
| ExternalError (msg : string).

Inductive Result (A : Type) : Type :=
| Ok (a : A)
| Raise (e : Exc).

Arguments Ok {A} a.
Arguments Raise {A} e.

(** The collaborators a handler calls into. *)
Record Env : Type := mkEnv {
  now : Z;                                        (* datetime.utcnow() *)
  get_chat_member : Z -> Result string;           (* status of a user in CHANNEL_ID *)
  get_domains : Result (list string);             (* GET /domains, the 'domain' of each 'hydra:member' *)
  post_accounts : string -> string -> Result Z;   (* POST /accounts, the status code *)
  send_message : Z -> string -> Result unit;      (* bot.send_message *)
  randbelow : nat -> nat;                         (* the k-th raw draw of the random source *)
  message_present : bool                          (* a command arrives as update.message (True)
                                                     or, when sent by editing a message, as
                                                     update.edited_message, update.message
                                                     being None (False) *)
}.

Inductive Button : Type :=
| UrlButton (text url : string)
| CallbackButton (text data : string).

Definition Keyboard : Type := list (list Button).

(** Observable effects, in the order the handler performs them. *)
Inductive Event : Type :=
| EvGetChatMember (chat_id : option string) (uid : Z)
| EvLogError (msg : string)
| EvSessionOpen
| EvSessionClose
| EvQueryUserFirst (tid : Z)
| EvQueryVerifiedAll
| EvCommit
| EvAnswer
| EvReplyText (text : string) (markup : option Keyboard)
| EvEditMessageText (text : string) (markup : option Keyboard) (parse_mode : option string)
| EvHttpGet (url : string)
| EvHttpPost (url address pass : string)
| EvSendMessage (chat_id : Z) (text : string).

Record World : Type := mkWorld {
  db : Db;
  trace : list Event;
  drawn : nat
}.

(** ** The handler monad: state with exceptions.  The state reached when an
    exception is raised is kept, as committed rows and sent messages are. *)

Definition M (A : Type) : Type := World -> Result A * World.

Definition ret {A} (a : A) : M A := fun w => (Ok a, w).

Definition bind {A B} (m : M A) (k : A -> M B) : M B :=
  fun w => match m w with
           | (Ok a, w') => k a w'
           | (Raise e, w') => (Raise e, w')
           end.

Definition raise {A} (e : Exc) : M A := fun w => (Raise e, w).

Definition emit (e : Event) : M unit :=
  fun w => (Ok tt, mkWorld (db w) (trace w ++ [e]) (drawn w)).

Definition get_db : M Db := fun w => (Ok (db w), w).

Definition put_db (d : Db) : M unit :=
  fun w => (Ok tt, mkWorld d (trace w) (drawn w)).

Definition lift {A} (r : Result A) : M A := fun w => (r, w).

Notation "x <- m ;; k" := (bind m (fun x => k))
  (at level 61, m at next level, right associativity).
Notation "m ;; k" := (bind m (fun _ => k))
  (at level 61, right associativity).

(** ** Strings *)

(** [str(n)] for a Python [int]. *)
Definition str (n : Z) : string := NilZero.string_of_int (Z.to_int n).

(** Formatting an [os.environ.get] value inside an f-string. *)
Definition fmt (o : option string) : string :=
  match o with Some s => s | None => "None" end.

(** [str(e)] for an exception, as the log lines interpolate it. *)
Definition str_exc (e : Exc) : string :=
  match e with
  | AttributeError => "AttributeError"
  | IndexError => "IndexError"
  | IntegrityError => "IntegrityError"
  | ExternalError msg => msg
  end.

Definition nl : string := String (ascii_of_nat 10) "".

(** [string.ascii_lowercase] *)
Definition ascii_lowercase : string := "abcdefghijklmnopqrstuvwxyz".

Definition is_lower (c : ascii) : bool :=
  ((97 <=? nat_of_ascii c) && (nat_of_ascii c <=? 122))%nat.

Fixpoint all_chars (p : ascii -> bool) (s : string) : bool :=
  match s with
  | EmptyString => true
  | String c s' => p c && all_chars p s'
  end.

(** ** Store primitives *)

Definition fresh_id (ids : list Z) : Z := 1 + fold_right Z.max 0 ids.

(** [filter_by(telegram_id=tid).first()] *)
Definition find_user (tid : Z) (us : list User) : option User :=
  find (fun u => telegram_id u =? tid) us.

Definition set_verified (u : User) : User :=
  mkUser (id u) (telegram_id u) (join_date u) true.

(** [UPDATE users SET is_verified = true WHERE id = pk] *)
Definition mark_verified (pk : Z) (us : list User) : list User :=
  map (fun u => if id u =? pk then set_verified u else u) us.

Definition email_taken (a : string) (es : list EmailAccount) : bool :=
  existsb (fun e => String.eqb (email e) a) es.

Definition telegram_id_taken (tid : Z) (us : list User) : bool :=
  existsb (fun u => telegram_id u =? tid) us.

Section Handlers.

Variable cfg : Config.
Variable env : Env.

Definition session_open : M unit := emit EvSessionOpen.
Definition session_close : M unit := emit EvSessionClose.

(** [session.query(User).filter_by(telegram_id=tid).first()] *)
Definition query_user_first (tid : Z) : M (option User) :=
  emit (EvQueryUserFirst tid);;
  d <- get_db;;
  ret (find_user tid (users d)).

(** [session.query(User).filter_by(is_verified=True).all()] *)
Definition query_verified_all : M (list User) :=
  emit EvQueryVerifiedAll;;
  d <- get_db;;
  ret (filter is_verified (users d)).

(** [db_user = User(telegram_id=tid); session.add(db_user); session.commit()];
    the result is the persisted row [db_user] then refers to. *)
Definition add_user_commit (tid : Z) : M User :=
  d <- get_db;;
  if telegram_id_taken tid (users d) then raise IntegrityError
  else
    let u := mkUser (fresh_id (map id (users d))) tid (now env) false in
    put_db (mkDb (users d ++ [u]) (emails d));;
    emit EvCommit;;
    ret u.

(** [db_user.is_verified = True; session.commit()]; setting an attribute of
    [None] raises [AttributeError]. *)
Definition set_is_verified_commit (db_user : option User) : M unit :=
  match db_user with
  | None => raise AttributeError
  | Some u =>
      d <- get_db;;
      put_db (mkDb (mark_verified (id u) (users d)) (emails d));;
      emit EvCommit
  end.

(** [session.add(EmailAccount(user_id=.., email=.., password=..)); session.commit()] *)
Definition add_email_commit (uid : Z) (address pass : string) : M unit :=
  d <- get_db;;
  if email_taken address (emails d) then raise IntegrityError
  else
    let e := mkEmailAccount (fresh_id (map email_id (emails d))) uid address pass (now env) in
    put_db (mkDb (users d) (emails d ++ [e]));;
    emit EvCommit.

(** ** Chat transport *)

Definition answer : M unit := emit EvAnswer.

Definition reply_text (text : string) (markup : option Keyboard) : M unit :=
  emit (EvReplyText text markup).

Definition edit_message_text (text : string) (markup : option Keyboard)
    (parse_mode : option string) : M unit :=
  emit (EvEditMessageText text markup parse_mode).

(** ** Random strings *)

(** [random.choice(seq)]: [seq[randbelow(len(seq))]], [IndexError] on an
    empty sequence. *)
Definition random_choice (letters : string) : M ascii :=
  fun w =>
    match String.get (Nat.modulo (randbelow env (drawn w)) (String.length letters)) letters with
    | Some c => (Ok c, mkWorld (db w) (trace w) (S (drawn w)))
    | None => (Raise IndexError, w)
    end.

(** [''.join(random.choice(letters) for i in range(length))] *)
Fixpoint join_choices (letters : string) (length : nat) : M string :=
  match length with
  | O => ret ""
  | S n =>
      c <- random_choice letters;;
      s <- join_choices letters n;;
      ret (String c s)
  end.

Definition generate_random_string (length : nat) : M string :=
  let letters := ascii_lowercase in
  join_choices letters length.

(** ** Membership gate *)

Definition member_statuses : list string := ["member"; "administrator"; "creator"].

Definition status_in (s : string) (l : list string) : bool :=
  existsb (String.eqb s) l.

Definition is_member (tid : Z) : M bool :=
  emit (EvGetChatMember (CHANNEL_ID cfg) tid);;
  match get_chat_member env tid with
  | Ok status => ret (status_in status member_statuses)
  | Raise e =>
      emit (EvLogError ("Error checking membership: " ++ str_exc e));;
      ret false
  end.

(** ** Handlers *)

Definition main_menu : Keyboard :=
  [ [CallbackButton "Generate New Email" "new_email"];
    [CallbackButton "Check Inbox" "check_inbox"];
    [CallbackButton "Delete Email" "delete_email"] ].

(** What [show_main_menu] is handed as [update]: the [Update] of a command
    ([start]) or the [CallbackQuery] of a button ([verify]), each with the
    truth value of its [message].  A [CallbackQuery] has
    [edit_message_text]; an [Update] has no such attribute. *)
Inductive MenuTarget : Type :=
| OfUpdate (has_message : bool)
| OfQuery (has_message : bool).

Definition show_main_menu (update : MenuTarget) : M unit :=
  let reply_markup := Some main_menu in
  match update with
  | OfUpdate true | OfQuery true => reply_text "Main Menu:" reply_markup
  | OfQuery false => edit_message_text "Main Menu:" reply_markup None
  | OfUpdate false => raise AttributeError
  end.

(** [update.message.reply_text(..)] in a command handler: on an edited
    command [update.message] is [None] and the attribute access raises. *)
Definition message_reply_text (text : string) (markup : option Keyboard) : M unit :=
  if message_present env then reply_text text markup
  else raise AttributeError.

Definition join_keyboard : Keyboard :=
  [ [UrlButton "Join Channel" ("https://t.me/" ++ fmt (CHANNEL_ID cfg))];
    [CallbackButton "Verify" "verify"] ].

Definition join_prompt : Event :=
  EvReplyText "Please join our channel to use this bot!" (Some join_keyboard).

(** [start], the [/start] command.  The reply of the [else] branch is the
    call whose closing parenthesis the source lacks (lines 80-83); it is
    modelled as the call the three lines spell out. *)
Definition start (uid : Z) : M unit :=
  session_open;;
  found <- query_user_first uid;;
  db_user <- match found with
             | None => u <- add_user_commit uid;; ret (Some u)
             | Some u => ret (Some u)
             end;;
  m <- is_member uid;;
  (if m then
     set_is_verified_commit db_user;;
     show_main_menu (OfUpdate (message_present env))
   else
     message_reply_text "Please join our channel to use this bot!" (Some join_keyboard));;
  session_close.

(** [verify], the [verify] callback; [has_message] is the truth value of
    [query.message]. *)
Definition verify (uid : Z) (has_message : bool) : M unit :=
  answer;;
  session_open;;
  db_user <- query_user_first uid;;
  m <- is_member uid;;
  (if m then
     set_is_verified_commit db_user;;
     edit_message_text "Verification successful!" None None;;
     show_main_menu (OfQuery has_message)
   else
     edit_message_text "You haven't joined the channel yet!" None None);;
  session_close.

Definition MAIL_API : string := "https://api.mail.tm".

Definition failure_message : Event :=
  EvEditMessageText "Failed to create email. Please try again." None None.

(** [new_email], the [new_email] callback. *)
Definition new_email (uid : Z) : M unit :=
  answer;;
  emit (EvHttpGet (MAIL_API ++ "/domains"));;
  domain_response <- lift (get_domains env);;
  domain <- match domain_response with
            | [] => raise IndexError
            | d :: _ => ret d
            end;;
  local_part <- generate_random_string 10;;
  let address := local_part ++ "@" ++ domain in
  pass <- generate_random_string 16;;
  emit (EvHttpPost (MAIL_API ++ "/accounts") address pass);;
  status_code <- lift (post_accounts env address pass);;
  if status_code =? 201 then
    session_open;;
    add_email_commit uid address pass;;
    session_close;;
    edit_message_text ("Your new email: `" ++ address ++ "`") None (Some "Markdown")
  else
    edit_message_text "Failed to create email. Please try again." None None.

Definition check_inbox : M unit :=
  answer;;
  edit_message_text "Inbox feature coming soon!" None None.

Definition delete_email : M unit :=
  answer;;
  edit_message_text "Delete feature coming soon!" None None.

(** The [for user in users] loop of [notify_all]; returns [count]. *)
Fixpoint send_all (message : string) (us : list User) (count : Z) : M Z :=
  match us with
  | [] => ret count
  | user :: rest =>
      let text := "ðŸ“¢ Admin Announcement:" ++ nl ++ nl ++ message in
      emit (EvSendMessage (telegram_id user) text);;
      match send_message env (telegram_id user) text with
      | Ok _ => send_all message rest (count + 1)
      | Raise e =>
          emit (EvLogError ("Failed to send to " ++ str (telegram_id user) ++ ": " ++ str_exc e));;
          send_all message rest count
      end
  end.

(** [str(update.effective_user.id) != ADMIN_ID] *)
Definition is_operator (uid : Z) : bool :=
  match ADMIN_ID cfg with
  | Some a => String.eqb (str uid) a
  | None => false
  end.

(** [notify_all], the [/notifyall] command with its arguments. *)
Definition notify_all (uid : Z) (args : list string) : M unit :=
  if negb (is_operator uid) then ret tt
  else
    let message := String.concat " " args in
    if String.eqb message "" then
      message_reply_text "Usage: /notifyall <message>" None
    else
      session_open;;
      us <- query_verified_all;;
      session_close;;
      count <- send_all message us 0;;
      message_reply_text ("Notification sent to " ++ str count ++ " users") None.

(** ** Dispatch, as registered in [main] *)

Inductive Action : Type :=
| AStart (uid : Z)
| AVerify (uid : Z) (has_message : bool)
| ANewEmail (uid : Z)
| ACheckInbox (uid : Z)
| ADeleteEmail (uid : Z)
| ANotifyAll (uid : Z) (args : list string).

Definition handle (a : Action) : M unit :=
  match a with
  | AStart uid => start uid
  | AVerify uid hm => verify uid hm
  | ANewEmail uid => new_email uid
  | ACheckInbox _ => check_inbox
  | ADeleteEmail _ => delete_email
  | ANotifyAll uid args => notify_all uid args
  end.

(** Running a handler on a database, from an empty trace. *)
Definition run {A} (m : M A) (d : Db) : Result A * World :=
  m (mkWorld d [] 0%nat).

End Handlers.

Definition outcome {A} (r : Result A * World) : Result A := fst r.
Definition db_after {A} (r : Result A * World) : Db := db (snd r).
Definition trace_of {A} (r : Result A * World) : list Event := trace (snd r).

(** * Specification vocabulary

    The relations, predicates and closed forms the theorems are stated
    with.  None of them is part of the program. *)

Open Scope list_scope.

(** Whatever the outcome, the database a computation leaves is related by
    [R] to the one it started from. *)
Definition preserves (R : Db -> Db -> Prop) {A} (m : M A) : Prop :=
  forall w, R (db w) (db (snd (m w))).

(** [u'] is the row [u] at a later time: same key, owner and join date, and
    a set [is_verified] stays set. *)
Definition user_le (u u' : User) : Prop :=
  id u' = id u /\ telegram_id u' = telegram_id u /\ join_date u' = join_date u /\
  (is_verified u = true -> is_verified u' = true).

(** [d'] is [d] at a later time: every row of [d] is still there, in place,
    and new rows come after the old ones. *)
Definition db_le (d d' : Db) : Prop :=
  (exists old new, users d' = old ++ new /\ Forall2 user_le (users d) old) /\
  (exists new, emails d' = emails d ++ new).

(** The [users] table, respectively the [emails] table, is as it was. *)
Definition same_users (d d' : Db) : Prop := users d' = users d.
Definition same_emails (d d' : Db) : Prop := emails d' = emails d.

(** The gate's answer as a function of the oracle's reply. *)
Definition member_of (r : Result string) : bool :=
  match r with
  | Ok status => status_in status member_statuses
  | Raise _ => false
  end.

(** What the gate adds to the trace. *)
Definition gate_events (cfg : Config) (env : Env) (tid : Z) : list Event :=
  EvGetChatMember (CHANNEL_ID cfg) tid ::
  match get_chat_member env tid with
  | Ok _ => []
  | Raise e => [EvLogError ("Error checking membership: " ++ str_exc e)%string]
  end.

(** The row [start] inserts for a caller it has not seen. *)
Definition new_user (env : Env) (uid : Z) (us : list User) : User :=
  mkUser (fresh_id (map id us)) uid (now env) false.

(** The event by which [show_main_menu] shows the menu. *)
Definition menu_event (has_message : bool) : Event :=
  if has_message then EvReplyText "Main Menu:" (Some main_menu)
  else EvEditMessageText "Main Menu:" (Some main_menu) None.

(** The database [start] leaves, given the gate's answer [m]. *)
Definition start_db (env : Env) (uid : Z) (m : bool) (d : Db) : Db :=
  match find_user uid (users d) with
  | Some u => if m then mkDb (mark_verified (id u) (users d)) (emails d) else d
  | None =>
      let u := new_user env uid (users d) in
      if m then mkDb (mark_verified (id u) (users d ++ [u])) (emails d)
      else mkDb (users d ++ [u]) (emails d)
  end.

(** The trace of [start], given the gate's answer [m]: on an edited
    command it ends where the reply is attempted. *)
Definition start_trace (cfg : Config) (env : Env) (uid : Z) (m : bool) (d : Db) : list Event :=
  [EvSessionOpen; EvQueryUserFirst uid] ++
  match find_user uid (users d) with Some _ => [] | None => [EvCommit] end ++
  gate_events cfg env uid ++
  (if m then [EvCommit] else []) ++
  (if message_present env then
     [if m then menu_event true else join_prompt cfg; EvSessionClose]
   else []).

(** The outcome of a command handler that gets as far as its reply. *)
Definition reply_outcome (env : Env) : Result unit :=
  if message_present env then Ok tt else Raise AttributeError.

(** What [verify] does up to and including the gate. *)
Definition verify_prefix (cfg : Config) (env : Env) (uid : Z) : list Event :=
  [EvAnswer; EvSessionOpen; EvQueryUserFirst uid] ++ gate_events cfg env uid.

(** The event puts the main menu (the keyboard with the [new_email]
    button) on the user's screen. *)
Definition shows_menu (e : Event) : Prop :=
  match e with
  | EvReplyText _ (Some k) => k = main_menu
  | EvEditMessageText _ (Some k) _ => k = main_menu
  | _ => False
  end.

(** The keyboard carries a button whose callback data is [new_email]. *)
Definition has_new_email_button (k : Keyboard) : Prop :=
  exists row text, In row k /\ In (CallbackButton text "new_email") row.

(** The event puts a keyboard with the [new_email] button on the user's
    screen. *)
Definition offers_new_email (e : Event) : Prop :=
  match e with
  | EvReplyText _ (Some k) => has_new_email_button k
  | EvEditMessageText _ (Some k) _ => has_new_email_button k
  | _ => False
  end.

(** The event shows something to the user in the chat of the update. *)
Definition shown (e : Event) : Prop :=
  match e with
  | EvReplyText _ _ => True
  | EvEditMessageText _ _ _ => True
  | _ => False
  end.

(** The event is a call to the mailbox provider. *)
Definition provider_call (e : Event) : Prop :=
  match e with
  | EvHttpGet _ => True
  | EvHttpPost _ _ _ => True
  | _ => False
  end.

(** The event reads or writes the database. *)
Definition store_access (e : Event) : Prop :=
  match e with
  | EvSessionOpen | EvSessionClose | EvQueryUserFirst _ | EvQueryVerifiedAll
  | EvCommit => True
  | _ => False
  end.

(** No event of the trace satisfies [P]. *)
Definition never (P : Event -> Prop) (t : list Event) : Prop :=
  Forall (fun e => ~ P e) t.

(** The key constraints of the [users] table: [id] is the primary key and
    [telegram_id] is declared unique. *)
Definition wf_db (d : Db) : Prop :=
  NoDup (map id (users d)) /\ NoDup (map telegram_id (users d)).


(** The database after a sequence of actions, each met by its own
    environment. *)
Fixpoint run_all (cfg : Config) (steps : list (Env * Action)) (d : Db) : Db :=
  match steps with
  | [] => d
  | (env, a) :: rest => run_all cfg rest (db_after (run (handle cfg env a) d))
  end.

(** The lowercase letter number [j], counting from [a]. *)
Definition letter_at (j : nat) : ascii := ascii_of_nat (97 + j).

(** The letter [random.choice] picks for the raw draw [k]. *)
Definition letter (k : nat) : ascii := letter_at (Nat.modulo k 26).

(** The string built from [len] consecutive draws, starting with draw
    number [from]. *)
Fixpoint draws_string (env : Env) (from len : nat) : string :=
  match len with
  | O => EmptyString
  | S n => String (letter (randbelow env from)) (draws_string env (S from) n)
  end.

(** The address and the password [new_email] builds: draws 0 to 9 make
    the local part, draws 10 to 25 the password. *)
Definition address_of (env : Env) (domain : string) : string :=
  (draws_string env 0 10 ++ "@" ++ domain)%string.

Definition secret_of (env : Env) : string := draws_string env 10 16.

(** The trace of [new_email] up to and including the account request. *)
Definition new_email_calls (env : Env) (domain : string) : list Event :=
  [EvAnswer; EvHttpGet (MAIL_API ++ "/domains")%string;
   EvHttpPost (MAIL_API ++ "/accounts")%string (address_of env domain) (secret_of env)].

(** The row [new_email] inserts on success. *)
Definition new_account (env : Env) (uid : Z) (domain : string) (es : list EmailAccount)
  : EmailAccount :=
  mkEmailAccount (fresh_id (map email_id es)) uid (address_of env domain) (secret_of env)
    (now env).

(** The message that reveals the new address. *)
Definition address_message (env : Env) (domain : string) : Event :=
  EvEditMessageText ("Your new email: `" ++ address_of env domain ++ "`")%string None
    (Some "Markdown"%string).

(** The outcome and final state of [new_email], by cases on what the
    provider answers. *)
Definition new_email_result (env : Env) (uid : Z) (d : Db) : Result unit * World :=
  let before_post := [EvAnswer; EvHttpGet (MAIL_API ++ "/domains")%string] in
  match get_domains env with
  | Raise e => (Raise e, mkWorld d before_post 0%nat)
  | Ok [] => (Raise IndexError, mkWorld d before_post 0%nat)
  | Ok (domain :: _) =>
      let calls := new_email_calls env domain in
      match post_accounts env (address_of env domain) (secret_of env) with
      | Raise e => (Raise e, mkWorld d calls 26%nat)
      | Ok status_code =>
          if status_code =? 201 then
            if email_taken (address_of env domain) (emails d) then
              (Raise IntegrityError, mkWorld d (calls ++ [EvSessionOpen]) 26%nat)
            else
              (Ok tt,
               mkWorld (mkDb (users d) (emails d ++ [new_account env uid domain (emails d)]))
                 (calls ++ [EvSessionOpen; EvCommit; EvSessionClose;
                            address_message env domain]) 26%nat)
          else (Ok tt, mkWorld d (calls ++ [failure_message]) 26%nat)
      end
  end.

(** The (address, password) pairs sent to the provider's account
    creation endpoint, in order. *)
Fixpoint posted (t : list Event) : list (string * string) :=
  match t with
  | [] => []
  | EvHttpPost _ address pass :: t' => (address, pass) :: posted t'
  | _ :: t' => posted t'
  end.

(** The event reads the [users] table. *)
Definition reads_users (e : Event) : Prop :=
  match e with
  | EvQueryUserFirst _ | EvQueryVerifiedAll => True
  | _ => False
  end.

(** C1 as the specification words it: for a caller whose record is
    unverified [new_email] makes no provider call, adds no mailbox row and
    shows nothing. *)
Definition new_email_rejects_unverified : Prop :=
  forall (env : Env) (uid : Z) (d : Db) (u : User),
    find_user uid (users d) = Some u -> is_verified u = false ->
    let r := run (new_email env uid) d in
    never provider_call (trace_of r) /\
    emails (db_after r) = emails d /\
    never (fun e => exists text m p, e = EvEditMessageText text m p) (trace_of r).

(** A provider that serves one domain and accepts every account, an oracle
    that reports every user as having left, and a random source whose k-th
    draw is k. *)
Definition env_accepting : Env :=
  mkEnv 1000 (fun _ => Ok "left"%string) (Ok ["example.com"%string])
    (fun _ _ => Ok 201) (fun _ _ => Ok tt) (fun k => k) true.

(** The same provider refusing every account with status 422. *)
Definition env_refusing : Env :=
  mkEnv 1000 (fun _ => Ok "left"%string) (Ok ["example.com"%string])
    (fun _ _ => Ok 422) (fun _ _ => Ok tt) (fun k => k) true.

(** An oracle that reports every user as a member. *)
Definition env_member : Env :=
  mkEnv 1000 (fun _ => Ok "member"%string) (Ok ["example.com"%string])
    (fun _ _ => Ok 201) (fun _ _ => Ok tt) (fun k => k) true.

(** The same, for a command that was sent by editing a message. *)
Definition env_member_edited : Env :=
  mkEnv 1000 (fun _ => Ok "member"%string) (Ok ["example.com"%string])
    (fun _ _ => Ok 201) (fun _ _ => Ok tt) (fun k => k) false.

(** The operator is user 42. *)
Definition cfg_example : Config := mkConfig (Some "42"%string) (Some "@gate"%string).

(** User 7 is known and unverified, user 8 is verified; no mailbox yet. *)
Definition db_example : Db :=
  mkDb [mkUser 1 7 900 false; mkUser 2 8 950 true] [].

(** The text [notify_all] sends to each user. *)
Definition announcement (message : string) : string :=
  ("ðŸ“¢ Admin Announcement:" ++ nl ++ nl ++ message)%string.

(** The send to user [u] succeeds. *)
Definition delivered (env : Env) (message : string) (u : User) : bool :=
  match send_message env (telegram_id u) (announcement message) with
  | Ok _ => true
  | Raise _ => false
  end.

(** The trace of the broadcast loop over the users [us]. *)
Fixpoint send_events (env : Env) (message : string) (us : list User) : list Event :=
  match us with
  | [] => []
  | u :: rest =>
      EvSendMessage (telegram_id u) (announcement message) ::
      match send_message env (telegram_id u) (announcement message) with
      | Ok _ => []
      | Raise e =>
          [EvLogError ("Failed to send to " ++ str (telegram_id u) ++ ": " ++ str_exc e)%string]
      end ++ send_events env message rest
  end.

(** The number of users of [us] the broadcast reached. *)
Definition send_count (env : Env) (message : string) (us : list User) : Z :=
  Z.of_nat (List.length (filter (delivered env message) us)).

(** The chat ids and texts of the direct messages of a trace, in order. *)
Fixpoint sent_to (t : list Event) : list (Z * string) :=
  match t with
  | [] => []
  | EvSendMessage chat_id text :: t' => (chat_id, text) :: sent_to t'
  | _ :: t' => sent_to t'
  end.

(** The reply that ends a broadcast. *)
Definition broadcast_report (count : Z) : Event :=
  EvReplyText ("Notification sent to " ++ str count ++ " users")%string None.

(** The outcome and final state of [notify_all], by cases. *)
Definition notify_all_result (cfg : Config) (env : Env) (uid : Z) (args : list string)
    (d : Db) : Result unit * World :=
  if is_operator cfg uid then
    let message := String.concat " " args in
    if String.eqb message "" then
      (reply_outcome env,
       mkWorld d
         (if message_present env then [EvReplyText "Usage: /notifyall <message>" None]
          else []) 0%nat)
    else
      let us := filter is_verified (users d) in
      (reply_outcome env,
       mkWorld d
         ([EvSessionOpen; EvQueryVerifiedAll; EvSessionClose] ++
          send_events env message us ++
          (if message_present env then [broadcast_report (send_count env message us)]
           else [])) 0%nat)
  else (Ok tt, mkWorld d [] 0%nat).

(** How often the event [e] is a session being opened, respectively
    closed, along a trace. *)
Fixpoint opens (t : list Event) : nat :=
  match t with
  | [] => 0
  | EvSessionOpen :: t' => S (opens t')
  | _ :: t' => opens t'
  end.

Fixpoint closes (t : list Event) : nat :=
  match t with
  | [] => 0
  | EvSessionClose :: t' => S (closes t')
  | _ :: t' => closes t'
  end.

(** The session events of a trace (open, query, commit, close), in order. *)
Fixpoint store_events (t : list Event) : list Event :=
  match t with
  | [] => []
  | EvSessionOpen :: t' => EvSessionOpen :: store_events t'
  | EvSessionClose :: t' => EvSessionClose :: store_events t'
  | EvQueryUserFirst tid :: t' => EvQueryUserFirst tid :: store_events t'
  | EvQueryVerifiedAll :: t' => EvQueryVerifiedAll :: store_events t'
  | EvCommit :: t' => EvCommit :: store_events t'
  | _ :: t' => store_events t'
  end.

(** The event is a query or a commit. *)
Definition query_or_commit (e : Event) : Prop :=
  match e with
  | EvQueryUserFirst _ | EvQueryVerifiedAll | EvCommit => True
  | _ => False
  end.

(** The event is a call to the membership oracle. *)
Definition oracle_call (e : Event) : Prop :=
  match e with
  | EvGetChatMember _ _ => True
  | _ => False
  end.

(** The event is a direct message of the bot to a user. *)
Definition direct_message (e : Event) : Prop :=
  match e with
  | EvSendMessage _ _ => True
  | _ => False
  end.

(** The key constraints of both tables: primary keys and the columns
    declared unique. *)
Definition wf_store (d : Db) : Prop :=
  wf_db d /\ NoDup (map email_id (emails d)) /\ NoDup (map email (emails d)).

(** A provider whose domain list is empty. *)
Definition env_no_domain : Env :=
  mkEnv 1000 (fun _ => Ok "member"%string) (Ok []) (fun _ _ => Ok 201)
    (fun _ _ => Ok tt) (fun k => k) true.

(** A database in which the address the draws 0, 1, 2, ... lead to is
    already stored. *)
Definition db_taken : Db :=
  mkDb [mkUser 1 7 900 true]
       [mkEmailAccount 1 7 "abcdefghij@example.com" "klmnopqrstuvwxyz" 950].

(** * Properties *)

(** ** Relations between the database before and after a computation *)

Section Preserves.

Variable R : Db -> Db -> Prop.
Hypothesis R_refl : forall d, R d d.
Hypothesis R_trans : forall d1 d2 d3, R d1 d2 -> R d2 d3 -> R d1 d3.

Lemma preserves_ret {A} (a : A) : preserves R (ret a).
Proof. intro w; apply R_refl. Qed.

Lemma preserves_raise {A} e : preserves R (@raise A e).
Proof. intro w; apply R_refl. Qed.

Lemma preserves_lift {A} (r : Result A) : preserves R (lift r).
Proof. intro w; apply R_refl. Qed.

Lemma preserves_emit e : preserves R (emit e).
Proof. intro w; apply R_refl. Qed.

Lemma preserves_get_db : preserves R get_db.
Proof. intro w; apply R_refl. Qed.

Lemma preserves_bind {A B} (m : M A) (k : A -> M B) :
  preserves R m -> (forall a, preserves R (k a)) -> preserves R (bind m k).
Proof.
  intros Hm Hk w. unfold bind.
  specialize (Hm w). destruct (m w) as [[a|e] w'] eqn:E; simpl in *.
  - eapply R_trans; [exact Hm|]. apply Hk.
  - exact Hm.
Qed.

Lemma preserves_if {A} (b : bool) (m1 m2 : M A) :
  preserves R m1 -> preserves R m2 -> preserves R (if b then m1 else m2).
Proof. destruct b; auto. Qed.

Lemma preserves_random_choice env letters : preserves R (random_choice env letters).
Proof.
  intro w. unfold random_choice.
  destruct (String.get _ letters); simpl; apply R_refl.
Qed.

Lemma preserves_join_choices env letters n : preserves R (join_choices env letters n).
Proof.
  induction n; simpl.
  - apply preserves_ret.
  - apply preserves_bind; [apply preserves_random_choice|intro].
    apply preserves_bind; [exact IHn|intro]. apply preserves_ret.
Qed.

Lemma preserves_is_member cfg env tid : preserves R (is_member cfg env tid).
Proof.
  unfold is_member. apply preserves_bind; [apply preserves_emit|intro].
  destruct (get_chat_member env tid).
  - apply preserves_ret.
  - apply preserves_bind; [apply preserves_emit|intro; apply preserves_ret].
Qed.

Lemma preserves_query_user_first tid : preserves R (query_user_first tid).
Proof.
  unfold query_user_first.
  apply preserves_bind; [apply preserves_emit|intro].
  apply preserves_bind; [apply preserves_get_db|intro]. apply preserves_ret.
Qed.

Lemma preserves_query_verified_all : preserves R query_verified_all.
Proof.
  unfold query_verified_all.
  apply preserves_bind; [apply preserves_emit|intro].
  apply preserves_bind; [apply preserves_get_db|intro]. apply preserves_ret.
Qed.

Lemma preserves_send_all env message us :
  forall count, preserves R (send_all env message us count).
Proof.
  induction us as [|u us IH]; intro count; simpl.
  - apply preserves_ret.
  - apply preserves_bind; [apply preserves_emit|intro].
    destruct (send_message env _ _); [apply IH|].
    apply preserves_bind; [apply preserves_emit|intro]. apply IH.
Qed.

End Preserves.

(** Decomposes a handler along its binds; [prim] closes the store
    primitives, which depend on the relation. *)
Ltac preserves_with rfl trs prim :=
  repeat first
    [ simple apply (preserves_is_member _ rfl trs)
    | simple apply (preserves_join_choices _ rfl trs)
    | simple apply (preserves_send_all _ rfl trs)
    | simple apply (preserves_query_user_first _ rfl trs)
    | simple apply (preserves_query_verified_all _ rfl trs)
    | simple apply (preserves_ret _ rfl)
    | simple apply (preserves_raise _ rfl)
    | simple apply (preserves_lift _ rfl)
    | simple apply (preserves_emit _ rfl)
    | simple apply preserves_if
    | match goal with |- preserves _ (match ?x with _ => _ end) => destruct x end
    | solve [prim]
    | simple apply (preserves_bind _ trs); [|intro] ].

Ltac unfold_handlers :=
  unfold handle, start, verify, new_email, check_inbox, delete_email, notify_all,
    generate_random_string, show_main_menu, message_reply_text, answer, reply_text,
    edit_message_text, session_open, session_close.

(** *** Rows are never removed and a set flag is never cleared *)

Lemma user_le_refl u : user_le u u.
Proof. unfold user_le; auto. Qed.

Lemma user_le_trans u v w : user_le u v -> user_le v w -> user_le u w.
Proof.
  unfold user_le; intros (a1 & a2 & a3 & a4) (b1 & b2 & b3 & b4).
  repeat split; try congruence; auto.
Qed.

Lemma Forall2_user_le_refl us : Forall2 user_le us us.
Proof. induction us; constructor; auto using user_le_refl. Qed.

Lemma Forall2_user_le_trans us : forall vs ws,
  Forall2 user_le us vs -> Forall2 user_le vs ws -> Forall2 user_le us ws.
Proof.
  induction us as [|u us IH]; intros vs ws H1 H2.
  - inversion H1; subst. inversion H2; subst. constructor.
  - inversion H1; subst. inversion H2; subst.
    constructor; eauto using user_le_trans.
Qed.

Lemma db_le_refl d : db_le d d.
Proof.
  split.
  - exists (users d), []. rewrite app_nil_r. split; auto using Forall2_user_le_refl.
  - exists []. now rewrite app_nil_r.
Qed.

Lemma db_le_trans d1 d2 d3 : db_le d1 d2 -> db_le d2 d3 -> db_le d1 d3.
Proof.
  intros [(o1 & n1 & E1 & F1) (m1 & M1)] [(o2 & n2 & E2 & F2) (m2 & M2)].
  split.
  - rewrite E1 in F2.
    apply Forall2_app_inv_l in F2 as (p & q & Fp & Fq & ->).
    exists p, (q ++ n2). split.
    + now rewrite E2, app_assoc.
    + eauto using Forall2_user_le_trans.
  - exists (m1 ++ m2). now rewrite M2, M1, app_assoc.
Qed.

Lemma mark_verified_le pk us : Forall2 user_le us (mark_verified pk us).
Proof.
  induction us as [|u us IH]; simpl; constructor; auto.
  destruct (id u =? pk); [|apply user_le_refl].
  unfold user_le, set_verified; simpl; auto.
Qed.

Lemma grows_add_user_commit env tid : preserves db_le (add_user_commit env tid).
Proof.
  intro w. unfold add_user_commit, bind, get_db, put_db, emit, raise, ret.
  destruct (telegram_id_taken tid (users (db w))); simpl; [apply db_le_refl|].
  split; simpl.
  - eexists _, _. split; [reflexivity|]. apply Forall2_user_le_refl.
  - exists []. now rewrite app_nil_r.
Qed.

Lemma grows_set_is_verified_commit o : preserves db_le (set_is_verified_commit o).
Proof.
  intro w. destruct o as [u|]; simpl; [|apply db_le_refl].
  split; simpl.
  - exists (mark_verified (id u) (users (db w))), []. rewrite app_nil_r.
    split; [reflexivity|]. apply mark_verified_le.
  - exists []. now rewrite app_nil_r.
Qed.

Lemma grows_add_email_commit env uid a p :
  preserves db_le (add_email_commit env uid a p).
Proof.
  intro w. unfold add_email_commit, bind, get_db, put_db, emit, raise, ret.
  destruct (email_taken a (emails (db w))); simpl; [apply db_le_refl|].
  split; simpl.
  - exists (users (db w)), []. rewrite app_nil_r.
    split; [reflexivity|]. apply Forall2_user_le_refl.
  - eexists. reflexivity.
Qed.

Lemma grows_handle cfg env a : preserves db_le (handle cfg env a).
Proof.
  destruct a; unfold_handlers;
    preserves_with db_le_refl db_le_trans
      ltac:(first [ apply grows_add_user_commit
                  | apply grows_set_is_verified_commit
                  | apply grows_add_email_commit ]).
Qed.

(** *** Tables a handler does not write *)

Lemma same_users_refl d : same_users d d.
Proof. reflexivity. Qed.

Lemma same_users_trans d1 d2 d3 : same_users d1 d2 -> same_users d2 d3 -> same_users d1 d3.
Proof. unfold same_users; congruence. Qed.

Lemma same_emails_refl d : same_emails d d.
Proof. reflexivity. Qed.

Lemma same_emails_trans d1 d2 d3 :
  same_emails d1 d2 -> same_emails d2 d3 -> same_emails d1 d3.
Proof. unfold same_emails; congruence. Qed.

Lemma same_users_add_email_commit env uid a p :
  preserves same_users (add_email_commit env uid a p).
Proof.
  intro w. unfold add_email_commit, bind, get_db, put_db, emit, raise, ret.
  destruct (email_taken a (emails (db w))); reflexivity.
Qed.

Lemma same_emails_add_user_commit env tid :
  preserves same_emails (add_user_commit env tid).
Proof.
  intro w. unfold add_user_commit, bind, get_db, put_db, emit, raise, ret.
  destruct (telegram_id_taken tid (users (db w))); reflexivity.
Qed.

Lemma same_emails_set_is_verified_commit o :
  preserves same_emails (set_is_verified_commit o).
Proof. intro w. destruct o; reflexivity. Qed.

(** Only [start] and [verify] write the [users] table. *)
Lemma same_users_handle cfg env a :
  (forall uid, a <> AStart uid) -> (forall uid hm, a <> AVerify uid hm) ->
  preserves same_users (handle cfg env a).
Proof.
  intros H1 H2.
  destruct a; try (exfalso; eapply H1; reflexivity);
    try (exfalso; eapply H2; reflexivity);
    unfold_handlers;
    preserves_with same_users_refl same_users_trans
      ltac:(apply same_users_add_email_commit).
Qed.

(** Only [new_email] writes the [emails] table. *)
Lemma same_emails_handle cfg env a :
  (forall uid, a <> ANewEmail uid) ->
  preserves same_emails (handle cfg env a).
Proof.
  intros H1.
  destruct a; try (exfalso; eapply H1; reflexivity);
    unfold_handlers;
    preserves_with same_emails_refl same_emails_trans
      ltac:(first [ apply same_emails_add_user_commit
                  | apply same_emails_set_is_verified_commit ]).
Qed.

(** ** The membership gate *)

Lemma is_member_run cfg env tid w :
  is_member cfg env tid w =
  (Ok (member_of (get_chat_member env tid)),
   mkWorld (db w) (trace w ++ gate_events cfg env tid) (drawn w)).
Proof.
  unfold is_member, gate_events, member_of, bind, emit, ret.
  destruct (get_chat_member env tid); simpl.
  - reflexivity.
  - now rewrite <- app_assoc.
Qed.

Lemma status_in_member_statuses s :
  status_in s member_statuses = true <->
  s = "member"%string \/ s = "administrator"%string \/ s = "creator"%string.
Proof.
  unfold status_in, member_statuses; simpl.
  rewrite !orb_true_iff, !String.eqb_eq. intuition discriminate.
Qed.

(** C4: [is_member] answers [True] exactly when the oracle reports the
    status member, administrator or creator; for every other status and for
    every exception the oracle raises it answers [False]; it never raises,
    and it leaves the database as it was. *)
Theorem C4_is_member_fails_closed (cfg : Config) (env : Env) (tid : Z) (w : World) :
  let r := is_member cfg env tid w in
  (fst r = Ok true <->
     exists s, get_chat_member env tid = Ok s /\
       (s = "member"%string \/ s = "administrator"%string \/ s = "creator"%string)) /\
  (fst r = Ok false <->
     (exists s, get_chat_member env tid = Ok s /\
        s <> "member"%string /\ s <> "administrator"%string /\ s <> "creator"%string) \/
     (exists e, get_chat_member env tid = Raise e)) /\
  (forall e, fst r <> Raise e) /\
  db (snd r) = db w.
Proof.
  cbv zeta. rewrite is_member_run; cbn [fst snd db].
  destruct (get_chat_member env tid) as [s|e]; cbn [member_of].
  - pose proof (status_in_member_statuses s) as Hs.
    destruct (status_in s member_statuses) eqn:E.
    + apply proj1 in Hs. specialize (Hs eq_refl).
      split; [|split; [|split]]; try reflexivity; try discriminate.
      * split; [intros _; eauto | reflexivity].
      * split; [discriminate|].
        intros [(s' & Hs' & n1 & n2 & n3)|(e & He)]; [|discriminate].
        injection Hs' as <-. exfalso. intuition.
    + split; [|split; [|split]]; try reflexivity; try discriminate.
      * split; [discriminate|].
        intros (s' & Hs' & H). injection Hs' as <-.
        apply Hs in H. discriminate.
      * split; [|reflexivity].
        intros _. left. exists s. split; [reflexivity|].
        repeat split; intros ->; discriminate.
  - split; [|split; [|split]]; try reflexivity; try discriminate.
    + split; [discriminate|]. intros (s & Hs & _). discriminate.
    + split; [|reflexivity]. intros _. right. eauto.
Qed.

(** ** Marking a record verified *)

Lemma set_verified_idem u : set_verified (set_verified u) = set_verified u.
Proof. reflexivity. Qed.

Lemma mark_verified_idem pk us :
  mark_verified pk (mark_verified pk us) = mark_verified pk us.
Proof.
  unfold mark_verified. rewrite map_map. apply map_ext. intro u.
  destruct (id u =? pk) eqn:E; simpl; rewrite E; reflexivity.
Qed.

Lemma mark_verified_ids pk us : map id (mark_verified pk us) = map id us.
Proof.
  unfold mark_verified. rewrite map_map. apply map_ext. intro u.
  destruct (id u =? pk); reflexivity.
Qed.

Lemma mark_verified_telegram_ids pk us :
  map telegram_id (mark_verified pk us) = map telegram_id us.
Proof.
  unfold mark_verified. rewrite map_map. apply map_ext. intro u.
  destruct (id u =? pk); reflexivity.
Qed.

Lemma mark_verified_join_dates pk us :
  map join_date (mark_verified pk us) = map join_date us.
Proof.
  unfold mark_verified. rewrite map_map. apply map_ext. intro u.
  destruct (id u =? pk); reflexivity.
Qed.

(** C7: marking a record verified ([db_user.is_verified = True;
    session.commit()]) is idempotent.  After the first application the
    record has [is_verified = True] and its key, owner and join date are
    those it had before; a second application changes nothing in either
    table, and every row keeps its join date. *)
Theorem C7_mark_verified_idempotent (u : User) (w : World) :
  let w1 := snd (set_is_verified_commit (Some u) w) in
  let w2 := snd (set_is_verified_commit (Some u) w1) in
  db w2 = db w1 /\
  fst (set_is_verified_commit (Some u) w) = Ok tt /\
  fst (set_is_verified_commit (Some u) w1) = Ok tt /\
  set_verified (set_verified u) = set_verified u /\
  is_verified (set_verified u) = true /\
  join_date (set_verified u) = join_date u /\
  telegram_id (set_verified u) = telegram_id u /\
  id (set_verified u) = id u /\
  map join_date (users (db w1)) = map join_date (users (db w)) /\
  map join_date (users (db w2)) = map join_date (users (db w)) /\
  (forall r, In r (users (db w1)) -> id r = id u -> is_verified r = true) /\
  (forall r, In r (users (db w2)) -> id r = id u -> is_verified r = true).
Proof.
  cbv zeta. simpl. rewrite mark_verified_idem, mark_verified_join_dates.
  repeat split; try reflexivity.
  - intros r Hr Hid. unfold mark_verified in Hr.
    apply in_map_iff in Hr as (x & <- & _).
    destruct (id x =? id u) eqn:E; [reflexivity|].
    simpl in Hid. apply Z.eqb_neq in E. contradiction.
  - intros r Hr Hid. unfold mark_verified in Hr.
    apply in_map_iff in Hr as (x & <- & _).
    destruct (id x =? id u) eqn:E; [reflexivity|].
    simpl in Hid. apply Z.eqb_neq in E. contradiction.
Qed.

(** ** Rows are never deleted *)

Lemma Forall2_user_le_In us vs :
  Forall2 user_le us vs ->
  forall u, In u us -> exists u', In u' vs /\ user_le u u'.
Proof.
  induction 1 as [|u v us vs Huv _ IH]; intros x Hx; [destruct Hx|].
  destruct Hx as [<-|Hx].
  - exists v. split; [now left|exact Huv].
  - destruct (IH x Hx) as (x' & Hin & Hle). exists x'. split; [now right|exact Hle].
Qed.

Lemma db_le_user d d' u :
  db_le d d' -> In u (users d) ->
  exists u', In u' (users d') /\ user_le u u'.
Proof.
  intros [(old & new & E & F) _] Hu.
  destruct (Forall2_user_le_In _ _ F u Hu) as (u' & Hin & Hle).
  exists u'. split; [|exact Hle]. rewrite E. apply in_or_app. now left.
Qed.

Lemma db_le_verified d d' u :
  db_le d d' -> In u (users d) -> is_verified u = true -> In u (users d').
Proof.
  intros Hle Hu Hv.
  destruct (db_le_user _ _ _ Hle Hu) as (u' & Hin & (a & b & c & e)).
  specialize (e Hv).
  destruct u as [i t j v], u' as [i' t' j' v']; simpl in *; subst. exact Hin.
Qed.

Lemma db_le_email d d' e : db_le d d' -> In e (emails d) -> In e (emails d').
Proof.
  intros [_ (new & E)] He. rewrite E. apply in_or_app. now left.
Qed.

Lemma db_le_lengths d d' :
  db_le d d' ->
  (List.length (users d) <= List.length (users d'))%nat /\
  (List.length (emails d) <= List.length (emails d'))%nat.
Proof.
  intros [(old & new & E & F) (ne & E')].
  rewrite E, E', !length_app, (Forall2_length F). lia.
Qed.

(** C10: [check_inbox] and [delete_email] leave both tables exactly as they
    were, and no handler ever deletes a row: after any action every user
    row is still present with its key, owner and join date, every mailbox
    row is still present unchanged, and neither table has shrunk. *)
Theorem C10_stubs_frame_no_deletion (cfg : Config) (env : Env) :
  (forall d, db_after (run check_inbox d) = d) /\
  (forall d, db_after (run delete_email d) = d) /\
  (forall a d,
     let d' := db_after (run (handle cfg env a) d) in
     (forall u, In u (users d) ->
        exists u', In u' (users d') /\ id u' = id u /\
          telegram_id u' = telegram_id u /\ join_date u' = join_date u) /\
     (forall e, In e (emails d) -> In e (emails d')) /\
     (List.length (users d) <= List.length (users d'))%nat /\
     (List.length (emails d) <= List.length (emails d'))%nat).
Proof.
  split; [|split].
  - intros [us es]. reflexivity.
  - intros [us es]. reflexivity.
  - intros a d d'.
    assert (Hle : db_le d d') by apply (grows_handle cfg env a (mkWorld d [] 0%nat)).
    split; [|split].
    + intros u Hu. destruct (db_le_user _ _ _ Hle Hu) as (u' & Hin & (h1 & h2 & h3 & _)).
      eauto.
    + intros e He. eapply db_le_email; eauto.
    + apply db_le_lengths, Hle.
Qed.

(** ** Looking a user up *)

Lemma find_user_app tid us vs :
  find_user tid (us ++ vs) =
  match find_user tid us with
  | Some u => Some u
  | None => find_user tid vs
  end.
Proof.
  unfold find_user. induction us as [|u us IH]; simpl; [reflexivity|].
  destruct (telegram_id u =? tid); auto.
Qed.

Lemma find_user_mark_verified tid pk us :
  find_user tid (mark_verified pk us) =
  option_map (fun u => if id u =? pk then set_verified u else u) (find_user tid us).
Proof.
  unfold find_user, mark_verified. induction us as [|u us IH]; simpl; [reflexivity|].
  destruct (id u =? pk) eqn:E; simpl; destruct (telegram_id u =? tid); simpl;
    rewrite ?E; auto.
Qed.

Lemma find_user_telegram_id tid us u : find_user tid us = Some u -> telegram_id u = tid.
Proof.
  intro H. apply find_some in H as [_ H]. now apply Z.eqb_eq in H.
Qed.


Lemma find_user_none_not_taken tid us :
  find_user tid us = None -> telegram_id_taken tid us = false.
Proof.
  unfold find_user, telegram_id_taken. induction us as [|u us IH]; simpl; [reflexivity|].
  destruct (telegram_id u =? tid); [discriminate|]. exact IH.
Qed.

Lemma find_user_none_not_In tid us :
  find_user tid us = None -> ~ In tid (map telegram_id us).
Proof.
  intros H Hin. apply in_map_iff in Hin as (u & Hu & Hin).
  apply (find_none _ _ H) in Hin. apply Z.eqb_neq in Hin. contradiction.
Qed.

(** With unique [telegram_id]s the row found is the row of that user. *)
Lemma find_user_unique tid us u :
  NoDup (map telegram_id us) -> In u us -> telegram_id u = tid ->
  find_user tid us = Some u.
Proof.
  unfold find_user. induction us as [|v us IH]; simpl; intros Hnd Hin Ht; [destruct Hin|].
  inversion Hnd as [|x l Hnot Hnd']; subst.
  destruct Hin as [->|Hin].
  - now rewrite Z.eqb_refl.
  - destruct (telegram_id v =? telegram_id u) eqn:E.
    + apply Z.eqb_eq in E. exfalso. apply Hnot. rewrite E. now apply in_map.
    + now apply IH.
Qed.

Lemma fold_max_ge ids x : In x ids -> x <= fold_right Z.max 0 ids.
Proof.
  induction ids as [|y ids IH]; simpl; intros H; [destruct H|].
  destruct H as [->|H]; [lia|]. specialize (IH H). lia.
Qed.

Lemma fresh_id_fresh ids : ~ In (fresh_id ids) ids.
Proof.
  intro H. apply fold_max_ge in H. unfold fresh_id in H. lia.
Qed.

(** ** What [start] and [verify] compute *)

#[local] Arguments is_member : simpl never.
#[local] Arguments gate_events : simpl never.
#[local] Arguments member_of : simpl never.
#[local] Arguments mark_verified : simpl never.
#[local] Arguments find_user : simpl never.
#[local] Arguments fresh_id : simpl never.
#[local] Arguments join_keyboard : simpl never.
#[local] Arguments main_menu : simpl never.
#[local] Arguments String.append : simpl never.
#[local] Arguments str : simpl never.

Lemma start_run cfg env uid d :
  run (start cfg env uid) d =
  let m := member_of (get_chat_member env uid) in
  (reply_outcome env,
   mkWorld (start_db env uid m d) (start_trace cfg env uid m d) 0%nat).
Proof.
  unfold run, start, start_db, start_trace, reply_outcome, query_user_first,
    add_user_commit, session_open, session_close, show_main_menu, message_reply_text,
    reply_text, menu_event, join_prompt, new_user, bind, emit, get_db, put_db, ret, raise.
  cbn [db trace drawn users emails].
  destruct (find_user uid (users d)) as [u|] eqn:F.
  - rewrite is_member_run. cbn [db trace drawn].
    destruct (member_of (get_chat_member env uid)), (message_present env); simpl;
      rewrite <- ?app_assoc; simpl; rewrite ?app_nil_r; reflexivity.
  - cbn [db trace drawn users emails].
    rewrite (find_user_none_not_taken _ _ F). cbn [db trace drawn users emails].
    rewrite is_member_run. cbn [db trace drawn].
    destruct (member_of (get_chat_member env uid)), (message_present env); simpl;
      rewrite <- ?app_assoc; simpl; rewrite ?app_nil_r; reflexivity.
Qed.

Lemma verify_run cfg env uid hm d :
  run (verify cfg env uid hm) d =
  if member_of (get_chat_member env uid) then
    match find_user uid (users d) with
    | Some u =>
        (Ok tt,
         mkWorld (mkDb (mark_verified (id u) (users d)) (emails d))
           (verify_prefix cfg env uid ++
            [EvCommit; EvEditMessageText "Verification successful!" None None;
             menu_event hm; EvSessionClose]) 0%nat)
    | None => (Raise AttributeError, mkWorld d (verify_prefix cfg env uid) 0%nat)
    end
  else
    (Ok tt,
     mkWorld d
       (verify_prefix cfg env uid ++
        [EvEditMessageText "You haven't joined the channel yet!" None None;
         EvSessionClose]) 0%nat).
Proof.
  unfold run, verify, verify_prefix, query_user_first, answer,
    session_open, session_close, show_main_menu, reply_text, edit_message_text,
    menu_event, bind, emit, get_db, put_db, ret, raise.
  cbn [db trace drawn users emails].
  rewrite is_member_run. cbn [db trace drawn].
  destruct (member_of (get_chat_member env uid)).
  - destruct (find_user uid (users d)) as [u|] eqn:F; simpl.
    + destruct hm; simpl; rewrite <- ?app_assoc; reflexivity.
    + reflexivity.
  - simpl. rewrite <- ?app_assoc. reflexivity.
Qed.

(** ** What a trace shows to the user *)

Lemma never_app P t1 t2 : never P (t1 ++ t2) <-> never P t1 /\ never P t2.
Proof. apply Forall_app. Qed.

Lemma never_gate_events cfg env uid P :
  (forall c u, ~ P (EvGetChatMember c u)) -> (forall m, ~ P (EvLogError m)) ->
  never P (gate_events cfg env uid).
Proof.
  intros H1 H2. unfold gate_events, never.
  destruct (get_chat_member env uid); repeat constructor; auto.
Qed.

(** ** [verify] *)

(** C9: [verify] never creates a record: for a caller without one the
    database is left exactly as it was and still has no record for them.
    It raises ([AttributeError], from setting an attribute of [None])
    exactly when the record is absent and the gate answers member; it does
    so before any commit and without showing the menu.  In every other case
    (record present, or gate answers not-member) it returns normally. *)
Theorem C9_verify_needs_record (cfg : Config) (env : Env) (uid : Z) (hm : bool) (d : Db) :
  let r := run (verify cfg env uid hm) d in
  let m := member_of (get_chat_member env uid) in
  (find_user uid (users d) = None ->
     db_after r = d /\ find_user uid (users (db_after r)) = None) /\
  (outcome r = Raise AttributeError <-> find_user uid (users d) = None /\ m = true) /\
  (outcome r = Raise AttributeError ->
     never (fun e => e = EvCommit) (trace_of r) /\ never shows_menu (trace_of r) /\
     trace_of r = verify_prefix cfg env uid) /\
  (outcome r = Ok tt <-> (exists u, find_user uid (users d) = Some u) \/ m = false) /\
  (forall e, outcome r = Raise e -> e = AttributeError).
Proof.
  cbv zeta. unfold outcome, db_after, trace_of. rewrite verify_run.
  assert (Hprefix : never (fun e => e = EvCommit) (verify_prefix cfg env uid) /\
                    never shows_menu (verify_prefix cfg env uid)).
  { unfold verify_prefix. rewrite !never_app. repeat split.
    - repeat constructor; discriminate.
    - apply never_gate_events; intros; discriminate.
    - repeat constructor; simpl; auto.
    - apply never_gate_events; intros; simpl; auto. }
  destruct Hprefix as [Hc Hm].
  destruct (member_of (get_chat_member env uid));
    destruct (find_user uid (users d)) as [u|] eqn:F; cbn [fst snd db trace].
  - (* record present, member *)
    split; [discriminate|].
    split; [split; [discriminate|intros [H _]; discriminate]|].
    split; [discriminate|].
    split; [split; [intros _; left; eauto|reflexivity]|discriminate].
  - (* record absent, member: the attribute of None is set *)
    split; [intros _; split; [reflexivity|exact F]|].
    split; [split; auto|].
    split; [intros _; auto|].
    split; [split; [discriminate|intros [[u Hu]|H]; discriminate]|].
    intros e He. now injection He as <-.
  - (* record present, not member *)
    split; [discriminate|].
    split; [split; [discriminate|intros [_ H]; discriminate]|].
    split; [discriminate|].
    split; [split; [intros _; left; eauto|reflexivity]|discriminate].
  - (* record absent, not member *)
    split; [intros _; split; [reflexivity|exact F]|].
    split; [split; [discriminate|intros [_ H]; discriminate]|].
    split; [discriminate|].
    split; [split; [intros _; now right|reflexivity]|discriminate].
Qed.

(** ** The verified flag along the actions *)

Lemma gate_answer cfg env tid :
  (forall w, fst (is_member cfg env tid w) = Ok true) <->
  member_of (get_chat_member env tid) = true.
Proof.
  split.
  - intros H. specialize (H (mkWorld (mkDb [] []) [] 0%nat)).
    rewrite is_member_run in H. simpl in H. congruence.
  - intros H w. rewrite is_member_run. simpl. now rewrite H.
Qed.




Lemma NoDup_ids_snoc env uid us :
  NoDup (map id us) -> NoDup (map id (us ++ [new_user env uid us])).
Proof.
  intros H. rewrite map_app. simpl.
  apply NoDup_app; [exact H|repeat constructor; intros []|].
  intros x Hx [<-|[]]. exact (fresh_id_fresh _ Hx).
Qed.


(** The key constraints hold along every action. *)
Lemma wf_handle cfg env a d :
  wf_db d -> wf_db (db_after (run (handle cfg env a) d)).
Proof.
  intros [Hid Htid]. unfold db_after.
  assert (Hsame : users (db (snd (run (handle cfg env a) d))) = users d -> 
                  wf_db (db (snd (run (handle cfg env a) d)))).
  { intros E. unfold wf_db. rewrite E. now split. }
  destruct a as [uid|uid hm|uid|uid|uid|uid args];
    try (apply Hsame;
         apply (same_users_handle cfg env _) with (w := mkWorld d [] 0%nat);
         intros; discriminate).
  - clear Hsame. cbn [handle]. rewrite start_run. cbv zeta. cbn [snd db].
    unfold start_db, wf_db.
    destruct (find_user uid (users d)) as [u|] eqn:F;
      destruct (member_of (get_chat_member env uid)); cbn [users];
      rewrite ?mark_verified_ids, ?mark_verified_telegram_ids; auto.
    + split; [now apply NoDup_ids_snoc|].
      rewrite map_app. simpl.
      apply NoDup_app; [exact Htid|repeat constructor; intros []|].
      intros x Hx [<-|[]]. exact (find_user_none_not_In _ _ F Hx).
    + split; [now apply NoDup_ids_snoc|].
      rewrite map_app. simpl.
      apply NoDup_app; [exact Htid|repeat constructor; intros []|].
      intros x Hx [<-|[]]. exact (find_user_none_not_In _ _ F Hx).
  - clear Hsame. cbn [handle]. rewrite verify_run.
    destruct (member_of (get_chat_member env uid));
      [destruct (find_user uid (users d)) as [u|]|]; cbn [snd db];
      unfold wf_db; cbn [users];
      rewrite ?mark_verified_ids, ?mark_verified_telegram_ids; auto.
Qed.

(** Along any sequence of actions the key constraints hold, a verified
    row stays as it is and no row is lost. *)
Lemma wf_run_all cfg steps : forall d, wf_db d -> wf_db (run_all cfg steps d).
Proof.
  induction steps as [|[env a] rest IH]; intros d H; simpl; [exact H|].
  apply IH, wf_handle, H.
Qed.

Lemma db_le_run_all cfg steps : forall d, db_le d (run_all cfg steps d).
Proof.
  induction steps as [|[env a] rest IH]; intros d; simpl; [apply db_le_refl|].
  eapply db_le_trans; [|apply IH].
  apply (grows_handle cfg env a (mkWorld d [] 0%nat)).
Qed.

Lemma verified_forever cfg steps d u :
  In u (users d) -> is_verified u = true -> In u (users (run_all cfg steps d)).
Proof.
  intros Hu Hv. eapply db_le_verified; eauto. apply db_le_run_all.
Qed.


(** ** Random strings *)

Lemma get_ascii_lowercase j :
  (j < 26)%nat -> String.get j ascii_lowercase = Some (letter_at j).
Proof.
  intro H. do 26 (destruct j as [|j]; [reflexivity|]). lia.
Qed.

Lemma random_choice_run env w :
  random_choice env ascii_lowercase w =
  (Ok (letter (randbelow env (drawn w))), mkWorld (db w) (trace w) (S (drawn w))).
Proof.
  unfold random_choice.
  change (String.length ascii_lowercase) with 26%nat.
  rewrite get_ascii_lowercase; [reflexivity|].
  apply Nat.mod_upper_bound. discriminate.
Qed.

Lemma generate_random_string_run env n : forall w,
  generate_random_string env n w =
  (Ok (draws_string env (drawn w) n), mkWorld (db w) (trace w) (drawn w + n)%nat).
Proof.
  unfold generate_random_string.
  induction n as [|n IH]; intro w.
  - simpl. unfold ret. rewrite Nat.add_0_r. now destruct w.
  - cbn [join_choices draws_string]. unfold bind at 1.
    rewrite random_choice_run. unfold bind at 1. rewrite IH.
    unfold ret. cbn [db trace drawn]. do 2 f_equal. lia.
Qed.

Lemma is_lower_letter_at j : (j < 26)%nat -> is_lower (letter_at j) = true.
Proof.
  intro H. unfold is_lower, letter_at.
  rewrite nat_ascii_embedding by lia.
  apply andb_true_iff. split; apply Nat.leb_le; lia.
Qed.

Lemma is_lower_letter k : is_lower (letter k) = true.
Proof.
  apply is_lower_letter_at, Nat.mod_upper_bound. discriminate.
Qed.

Lemma letter_of_draw k : (k < 26)%nat -> letter k = letter_at k.
Proof. intro H. unfold letter. now rewrite Nat.mod_small. Qed.

Lemma letter_at_inj j k :
  (j < 26)%nat -> (k < 26)%nat -> letter_at j = letter_at k -> j = k.
Proof.
  unfold letter_at. intros Hj Hk E.
  apply (f_equal nat_of_ascii) in E.
  rewrite !nat_ascii_embedding in E by lia. lia.
Qed.

Lemma is_lower_iff c :
  is_lower c = true <-> exists j, (j < 26)%nat /\ letter_at j = c.
Proof.
  split.
  - unfold is_lower. intros H. apply andb_true_iff in H as [H1 H2].
    apply Nat.leb_le in H1, H2.
    exists (nat_of_ascii c - 97)%nat. split; [lia|].
    unfold letter_at. replace (97 + (nat_of_ascii c - 97))%nat with (nat_of_ascii c) by lia.
    apply ascii_nat_embedding.
  - intros (j & Hj & <-). now apply is_lower_letter_at.
Qed.

Lemma draws_string_length env n : forall from,
  String.length (draws_string env from n) = n.
Proof. induction n; intro from; simpl; auto. Qed.

Lemma draws_string_lower env n : forall from,
  all_chars is_lower (draws_string env from n) = true.
Proof.
  induction n; intro from; cbn [draws_string all_chars]; [reflexivity|].
  now rewrite is_lower_letter, IHn.
Qed.

Lemma draws_string_get env n : forall from i,
  (i < n)%nat ->
  String.get i (draws_string env from n) = Some (letter (randbelow env (from + i))).
Proof.
  induction n as [|n IH]; intros from i Hi; [lia|].
  destruct i as [|i]; cbn [draws_string String.get].
  - now rewrite Nat.add_0_r.
  - rewrite IH by lia. do 3 f_equal. lia.
Qed.

(** ** What [new_email] computes *)

#[local] Arguments draws_string : simpl never.
#[local] Arguments email_taken : simpl never.
#[local] Arguments MAIL_API : simpl never.

Lemma new_email_run env uid d :
  run (new_email env uid) d = new_email_result env uid d.
Proof.
  unfold run, new_email, new_email_result, new_email_calls, address_message,
    failure_message, new_account, address_of, secret_of, answer, lift, raise,
    session_open, session_close, edit_message_text, add_email_commit.
  unfold bind at 1. unfold emit at 1. cbn [db trace drawn].
  unfold bind at 1. unfold emit at 1. cbn [db trace drawn app].
  unfold bind at 1.
  destruct (get_domains env) as [[|domain ds]|e]; try reflexivity.
  unfold bind at 1. unfold ret at 1.
  unfold bind at 1. rewrite generate_random_string_run. cbn [db trace drawn].
  unfold bind at 1. rewrite generate_random_string_run. cbn [db trace drawn].
  unfold bind at 1. unfold emit at 1. cbn [db trace drawn app Nat.add].
  unfold bind at 1.
  destruct (post_accounts env _ _) as [code|e]; [|reflexivity].
  destruct (code =? 201); [|reflexivity].
  unfold bind, emit, get_db, put_db, raise. cbn [db trace drawn app emails users].
  destruct (email_taken _ (emails d)); reflexivity.
Qed.

(** C5: when the provider's domain list is non-empty, [new_email] sends
    exactly one account creation request; its address is [L@D] with [D] the
    first domain of the list and [L] ten lowercase letters, and its password
    is sixteen lowercase letters.  Character [i] of either string is the
    letter picked by one draw of the random source alone (draws 0..9 for
    [L], 10..25 for the password), and a draw below 26 picks the letter of
    that number: the 26 draws and the 26 lowercase letters correspond one to
    one.  A mailbox row that the run adds carries that address, that
    password and the caller's id. *)
Theorem C5_address_and_secret_shape (env : Env) (uid : Z) (d : Db)
    (domain : string) (ds : list string) :
  get_domains env = Ok (domain :: ds) ->
  let r := run (new_email env uid) d in
  exists local_part secret : string,
    posted (trace_of r) = [((local_part ++ "@" ++ domain)%string, secret)] /\
    String.length local_part = 10%nat /\ all_chars is_lower local_part = true /\
    String.length secret = 16%nat /\ all_chars is_lower secret = true /\
    (forall i, (i < 10)%nat ->
       String.get i local_part = Some (letter (randbelow env i))) /\
    (forall i, (i < 16)%nat ->
       String.get i secret = Some (letter (randbelow env (10 + i)))) /\
    (forall k, (k < 26)%nat -> letter k = letter_at k) /\
    (forall j k, (j < 26)%nat -> (k < 26)%nat -> letter_at j = letter_at k -> j = k) /\
    (forall c, is_lower c = true <-> exists j, (j < 26)%nat /\ letter_at j = c) /\
    (forall e, In e (emails (db_after r)) ->
       In e (emails d) \/
       (email e = (local_part ++ "@" ++ domain)%string /\ password e = secret /\
        user_id e = uid)).
Proof.
  intros Hdom r.
  exists (draws_string env 0 10), (draws_string env 10 16).
  split; [|split; [|split; [|split; [|split; [|split; [|split; [|split; [|split; [|split]]]]]]]]].
  - subst r. unfold trace_of. rewrite new_email_run. unfold new_email_result.
    rewrite Hdom. cbv zeta. unfold new_email_calls, address_of, secret_of.
    destruct (post_accounts env _ _) as [code|e]; [|reflexivity].
    destruct (code =? 201); [|reflexivity].
    destruct (email_taken _ (emails d)); reflexivity.
  - apply draws_string_length.
  - apply draws_string_lower.
  - apply draws_string_length.
  - apply draws_string_lower.
  - intros i Hi. now rewrite draws_string_get.
  - intros i Hi. now rewrite draws_string_get.
  - apply letter_of_draw.
  - apply letter_at_inj.
  - apply is_lower_iff.
  - subst r. unfold db_after. rewrite new_email_run. unfold new_email_result.
    rewrite Hdom. cbv zeta. fold (address_of env domain). fold (secret_of env).
    destruct (post_accounts env _ _) as [code|e]; [|now left].
    destruct (code =? 201); [|now left].
    destruct (email_taken _ (emails d)); [now left|].
    cbn [snd db emails]. intros e He. apply in_app_or in He as [He|[<-|[]]].
    + now left.
    + right. repeat split.
Qed.

(** C2: when the account creation request is answered with a status other
    than 201, [new_email] leaves the database exactly as it was (no mailbox
    row is added), does not touch the store at all, returns normally, and
    the last thing it does is show the generic failure message. *)
Theorem C2_provider_failure_persists_nothing (env : Env) (uid : Z) (d : Db)
    (domain : string) (ds : list string) (status_code : Z) :
  get_domains env = Ok (domain :: ds) ->
  post_accounts env (address_of env domain) (secret_of env) = Ok status_code ->
  status_code <> 201 ->
  let r := run (new_email env uid) d in
  db_after r = d /\
  outcome r = Ok tt /\
  trace_of r = new_email_calls env domain ++ [failure_message] /\
  never store_access (trace_of r).
Proof.
  intros Hdom Hpost Hcode r. subst r.
  unfold db_after, outcome, trace_of. rewrite new_email_run.
  unfold new_email_result. rewrite Hdom. cbv zeta. rewrite Hpost.
  apply Z.eqb_neq in Hcode. rewrite Hcode. cbn [fst snd db trace].
  repeat split. unfold new_email_calls, failure_message.
  repeat constructor; simpl; auto.
Qed.

(** The same holds of the store when the request itself raises. *)
Lemma new_email_post_raises env uid d domain ds e :
  get_domains env = Ok (domain :: ds) ->
  post_accounts env (address_of env domain) (secret_of env) = Raise e ->
  db_after (run (new_email env uid) d) = d /\
  outcome (run (new_email env uid) d) = Raise e.
Proof.
  intros Hdom Hpost. unfold db_after, outcome. rewrite new_email_run.
  unfold new_email_result. rewrite Hdom. cbv zeta. rewrite Hpost. now split.
Qed.

(** ** [notify_all] *)

Lemma is_operator_iff cfg uid :
  is_operator cfg uid = true <-> ADMIN_ID cfg = Some (str uid).
Proof.
  unfold is_operator. destruct (ADMIN_ID cfg) as [a|].
  - rewrite String.eqb_eq. split; [now intros ->|congruence].
  - split; discriminate.
Qed.

(** C8: the authorization check of [notify_all] compares the decimal
    string of the caller's id with the configured [ADMIN_ID] for equality,
    and for a caller that fails it the handler does nothing at all: it
    returns at once with an empty trace (no message sent, no reply, no
    session opened, no query) and the database as it was. *)
Theorem C8_notify_all_rejects_non_operator (cfg : Config) (env : Env) (uid : Z)
    (args : list string) (d : Db) :
  (is_operator cfg uid = true <-> ADMIN_ID cfg = Some (str uid)) /\
  (ADMIN_ID cfg <> Some (str uid) ->
     outcome (run (notify_all cfg env uid args) d) = Ok tt /\
     trace_of (run (notify_all cfg env uid args) d) = [] /\
     db_after (run (notify_all cfg env uid args) d) = d).
Proof.
  split; [apply is_operator_iff|].
  intros H. unfold notify_all.
  destruct (is_operator cfg uid) eqn:E.
  - apply is_operator_iff in E. contradiction.
  - cbn [negb]. repeat split.
Qed.

(** ** The gate in front of [new_email] *)

Lemma never_Exists P t : never P t -> Exists P t -> False.
Proof.
  intros Hn He. apply Exists_exists in He as (e & Hin & Hp).
  unfold never in Hn. rewrite Forall_forall in Hn. exact (Hn e Hin Hp).
Qed.

Lemma email_taken_iff a es : email_taken a es = true <-> In a (map email es).
Proof.
  unfold email_taken. rewrite existsb_exists. split.
  - intros (e & He & Ha). apply String.eqb_eq in Ha. subst a. now apply in_map.
  - intros H. apply in_map_iff in H as (e & <- & He).
    exists e. split; [exact He|apply String.eqb_refl].
Qed.

Lemma email_not_taken a es : ~ In a (map email es) -> email_taken a es = false.
Proof.
  intros H. destruct (email_taken a es) eqn:E; [|reflexivity].
  apply email_taken_iff in E. contradiction.
Qed.

Lemma main_menu_has_new_email_button : has_new_email_button main_menu.
Proof.
  exists [CallbackButton "Generate New Email" "new_email"], "Generate New Email"%string.
  split; left; reflexivity.
Qed.

Lemma join_keyboard_no_new_email_button cfg : ~ has_new_email_button (join_keyboard cfg).
Proof.
  intros (row & text & Hrow & Hb). unfold join_keyboard in Hrow.
  destruct Hrow as [<-|[<-|[]]]; destruct Hb as [Hb|[]]; discriminate.
Qed.

Lemma offers_new_email_menu_event hm : offers_new_email (menu_event hm).
Proof. destruct hm; exact main_menu_has_new_email_button. Qed.

Lemma gate_events_offer_nothing cfg env uid :
  never offers_new_email (gate_events cfg env uid).
Proof. apply never_gate_events; intros; cbn; tauto. Qed.

(** [start] puts the [new_email] button on screen exactly when the gate
    answers member and the command carries its message. *)
Lemma start_trace_offers cfg env uid m d :
  Exists offers_new_email (start_trace cfg env uid m d) <->
  m = true /\ message_present env = true.
Proof.
  unfold start_trace. split.
  - intros H. destruct m, (message_present env); auto; exfalso; revert H;
      apply never_Exists; rewrite !never_app; repeat split;
      try apply gate_events_offer_nothing;
      try (destruct (find_user uid (users d)));
      repeat constructor; cbn; try tauto;
      apply join_keyboard_no_new_email_button.
  - intros [-> ->]. rewrite !Exists_app. right. right. right. right.
    left. apply offers_new_email_menu_event.
Qed.

(** [verify] puts it on screen exactly when the gate answers member and
    the caller has a record. *)
Lemma verify_offers cfg env uid hm d :
  Exists offers_new_email (trace_of (run (verify cfg env uid hm) d)) <->
  member_of (get_chat_member env uid) = true /\
  exists u, find_user uid (users d) = Some u.
Proof.
  unfold trace_of. rewrite verify_run.
  assert (Hprefix : never offers_new_email (verify_prefix cfg env uid)).
  { unfold verify_prefix. rewrite never_app. split.
    - repeat constructor; cbn; tauto.
    - apply gate_events_offer_nothing. }
  destruct (member_of (get_chat_member env uid));
    [destruct (find_user uid (users d)) as [u|]|]; cbn [snd trace]; split.
  - intros _. split; [reflexivity|eauto].
  - intros _. rewrite Exists_app. right. right. right. left.
    apply offers_new_email_menu_event.
  - intros H. exfalso. exact (never_Exists _ _ Hprefix H).
  - intros [_ [u Hu]]. discriminate.
  - intros H. exfalso. revert H. apply never_Exists.
    rewrite never_app. split; [exact Hprefix|]. repeat constructor; cbn; tauto.
  - intros [H _]. discriminate.
Qed.

Lemma start_db_verified env uid d :
  exists u, find_user uid (users (start_db env uid true d)) = Some u /\
            is_verified u = true.
Proof.
  unfold start_db. destruct (find_user uid (users d)) as [u|] eqn:F; cbn [users].
  - rewrite find_user_mark_verified, F. simpl. rewrite Z.eqb_refl.
    eexists; split; reflexivity.
  - rewrite find_user_mark_verified, find_user_app, F.
    unfold find_user at 1, new_user. simpl. rewrite Z.eqb_refl. simpl.
    rewrite Z.eqb_refl. eexists; split; reflexivity.
Qed.

(** C1, as stated, fails: for the unverified user 7 [new_email] calls the
    provider twice, persists a mailbox row and shows the address. *)
Lemma C1_counterexample :
  find_user 7 (users db_example) = Some (mkUser 1 7 900 false) /\
  outcome (run (new_email env_accepting 7) db_example) = Ok tt /\
  trace_of (run (new_email env_accepting 7) db_example) =
    [EvAnswer;
     EvHttpGet "https://api.mail.tm/domains";
     EvHttpPost "https://api.mail.tm/accounts" "abcdefghij@example.com" "klmnopqrstuvwxyz";
     EvSessionOpen; EvCommit; EvSessionClose;
     EvEditMessageText "Your new email: `abcdefghij@example.com`" None
       (Some "Markdown"%string)] /\
  emails (db_after (run (new_email env_accepting 7) db_example)) =
    [mkEmailAccount 1 7 "abcdefghij@example.com" "klmnopqrstuvwxyz" 1000] /\
  ~ new_email_rejects_unverified.
Proof.
  split; [reflexivity|]. split; [vm_compute; reflexivity|].
  split; [vm_compute; reflexivity|]. split; [vm_compute; reflexivity|].
  intros H.
  destruct (H env_accepting 7 db_example (mkUser 1 7 900 false) eq_refl eq_refl)
    as (_ & Hemails & _).
  vm_compute in Hemails. discriminate Hemails.
Qed.

(** C1 (amended): [new_email] does not consult the caller's verified flag.
    It never reads the [users] table and leaves it as it was; its outcome,
    its trace and the mailbox table it leaves are the same whatever the
    [users] table holds, so the same for a verified and an unverified
    caller.  Whenever the provider lists a domain it sends the account
    creation request, and when that is answered with 201 and the address is
    not stored yet it persists the mailbox row and ends by showing the
    address.  Access is gated by menu visibility alone: [start] shows a
    keyboard with the [new_email] button exactly when the gate answers
    member (and the command carries its message), [verify] exactly when
    the gate answers member and the caller has a record; and whenever
    either shows it, the caller's stored record has [is_verified = True]. *)
Theorem C1_new_email_gated_by_menu_only (cfg : Config) (env : Env) (uid : Z) :
  (forall us us' es,
     let r := run (new_email env uid) (mkDb us es) in
     let r' := run (new_email env uid) (mkDb us' es) in
     outcome r = outcome r' /\ trace_of r = trace_of r' /\
     emails (db_after r) = emails (db_after r') /\
     users (db_after r) = us) /\
  (forall d, never reads_users (trace_of (run (new_email env uid) d))) /\
  (forall d domain ds, get_domains env = Ok (domain :: ds) ->
     posted (trace_of (run (new_email env uid) d)) =
       [(address_of env domain, secret_of env)]) /\
  (forall d domain ds,
     get_domains env = Ok (domain :: ds) ->
     post_accounts env (address_of env domain) (secret_of env) = Ok 201 ->
     ~ In (address_of env domain) (map email (emails d)) ->
     let r := run (new_email env uid) d in
     outcome r = Ok tt /\
     emails (db_after r) =
       emails d ++
       [mkEmailAccount (fresh_id (map email_id (emails d))) uid
          (address_of env domain) (secret_of env) (now env)] /\
     exists t,
       trace_of r =
       t ++ [EvEditMessageText ("Your new email: `" ++ address_of env domain ++ "`")%string
               None (Some "Markdown"%string)]) /\
  (forall d,
     let r := run (start cfg env uid) d in
     (Exists offers_new_email (trace_of r) <->
        (forall w, fst (is_member cfg env uid w) = Ok true) /\
        message_present env = true) /\
     (Exists offers_new_email (trace_of r) ->
        exists u, find_user uid (users (db_after r)) = Some u /\ is_verified u = true)) /\
  (forall hm d,
     let r := run (verify cfg env uid hm) d in
     (Exists offers_new_email (trace_of r) <->
        (forall w, fst (is_member cfg env uid w) = Ok true) /\
        exists u, find_user uid (users d) = Some u) /\
     (Exists offers_new_email (trace_of r) ->
        exists u, find_user uid (users (db_after r)) = Some u /\ is_verified u = true)).
Proof.
  split; [|split; [|split; [|split; [|split]]]].
  - intros us us' es. cbv zeta. unfold outcome, trace_of, db_after.
    rewrite !new_email_run. unfold new_email_result. cbv zeta.
    destruct (get_domains env) as [[|domain ds]|e]; cbn [fst snd db trace users emails];
      try (repeat split; reflexivity).
    destruct (post_accounts env _ _) as [code|e];
      [|cbn [fst snd db trace users emails]; repeat split; reflexivity].
    destruct (code =? 201);
      [|cbn [fst snd db trace users emails]; repeat split; reflexivity].
    destruct (email_taken _ es); cbn [fst snd db trace users emails];
      repeat split; reflexivity.
  - intros d. unfold trace_of. rewrite new_email_run. unfold new_email_result.
    cbv zeta. unfold new_email_calls, failure_message, address_message.
    destruct (get_domains env) as [[|domain ds]|e]; cbn [snd trace];
      try (repeat constructor; simpl; tauto).
    destruct (post_accounts env _ _) as [code|e];
      [|cbn [snd trace]; repeat constructor; simpl; tauto].
    destruct (code =? 201); [|cbn [snd trace app]; repeat constructor; simpl; tauto].
    destruct (email_taken _ (emails d)); cbn [snd trace app];
      repeat constructor; simpl; tauto.
  - intros d domain ds Hdom. unfold trace_of. rewrite new_email_run.
    unfold new_email_result. rewrite Hdom. cbv zeta. unfold new_email_calls.
    destruct (post_accounts env _ _) as [code|e]; [|reflexivity].
    destruct (code =? 201); [|reflexivity].
    destruct (email_taken _ (emails d)); reflexivity.
  - intros d domain ds Hdom Hpost Hfree. cbv zeta.
    unfold outcome, db_after, trace_of. rewrite new_email_run.
    unfold new_email_result. rewrite Hdom. cbv zeta. rewrite Hpost.
    rewrite (email_not_taken _ _ Hfree).
    cbn [Z.eqb Pos.eqb fst snd db trace users emails].
    split; [reflexivity|]. split; [reflexivity|].
    exists (new_email_calls env domain ++ [EvSessionOpen; EvCommit; EvSessionClose]).
    rewrite <- app_assoc. reflexivity.
  - intros d. cbv zeta. unfold trace_of, db_after. rewrite start_run. cbv zeta.
    cbn [snd db trace]. rewrite gate_answer. split.
    + apply start_trace_offers.
    + intros H. apply start_trace_offers in H as [Hm _]. rewrite Hm.
      apply start_db_verified.
  - intros hm d. cbv zeta. rewrite gate_answer. split.
    + apply verify_offers.
    + intros H. apply verify_offers in H as [Hm [u Hu]].
      unfold db_after. rewrite verify_run, Hm, Hu. cbn [snd db users].
      rewrite find_user_mark_verified, Hu. cbn [option_map]. rewrite Z.eqb_refl.
      eexists; split; reflexivity.
Qed.

(** ** [start] on an edited command *)

(** C6: what [start] does on a [/start] that was sent by editing a message
    (so that [update.message] is [None]) while the gate answers member.
    The record is got or created and marked verified, but the menu is not
    shown: [show_main_menu] takes its [else] branch and asks the [Update]
    for [edit_message_text], which it does not have.  The handler raises
    [AttributeError] having shown nothing to the user, neither the menu nor
    the join prompt. *)
Theorem C6_start_edited_command_shows_nothing (cfg : Config) (env : Env) (uid : Z)
    (d : Db) :
  message_present env = false ->
  (forall w, fst (is_member cfg env uid w) = Ok true) ->
  let r := run (start cfg env uid) d in
  outcome r = Raise AttributeError /\
  never shown (trace_of r) /\
  never offers_new_email (trace_of r) /\
  exists u, find_user uid (users (db_after r)) = Some u /\ is_verified u = true.
Proof.
  intros Hmp Hgate. apply gate_answer in Hgate. cbv zeta.
  unfold outcome, trace_of, db_after. rewrite start_run. cbv zeta.
  rewrite Hgate. unfold reply_outcome, start_trace. rewrite Hmp.
  cbn [fst snd db trace].
  split; [reflexivity|]. split; [|split].
  - rewrite !never_app. repeat split.
    + repeat constructor; cbn; tauto.
    + destruct (find_user uid (users d)); repeat constructor; cbn; tauto.
    + apply never_gate_events; intros; cbn; tauto.
    + repeat constructor; cbn; tauto.
    + constructor.
  - rewrite !never_app. repeat split.
    + repeat constructor; cbn; tauto.
    + destruct (find_user uid (users d)); repeat constructor; cbn; tauto.
    + apply gate_events_offer_nothing.
    + repeat constructor; cbn; tauto.
    + constructor.
  - apply start_db_verified.
Qed.

Lemma C6_start_edited_command_witness :
  message_present env_member_edited = false /\
  outcome (run (start cfg_example env_member_edited 9) db_example) =
    Raise AttributeError /\
  never shown (trace_of (run (start cfg_example env_member_edited 9) db_example)).
Proof.
  split; [reflexivity|].
  destruct (C6_start_edited_command_shows_nothing cfg_example env_member_edited 9
              db_example eq_refl
              (proj2 (gate_answer cfg_example env_member_edited 9) eq_refl))
    as (H1 & H2 & _).
  split; assumption.
Defined.

(** The run itself: the record of user 9 is inserted and marked, then the
    reply fails. *)
Example start_edited_command_member :
  run (start cfg_example env_member_edited 9) db_example =
  (Raise AttributeError,
   mkWorld
     (mkDb [mkUser 1 7 900 false; mkUser 2 8 950 true; mkUser 3 9 1000 true] [])
     [EvSessionOpen; EvQueryUserFirst 9; EvCommit;
      EvGetChatMember (Some "@gate"%string) 9; EvCommit] 0%nat).
Proof. vm_compute. reflexivity. Qed.

(** ** The theorems at concrete inputs *)



(** C2 at a provider that answers 422. *)
Lemma C2_provider_failure_witness :
  get_domains env_refusing = Ok ["example.com"%string] /\
  post_accounts env_refusing (address_of env_refusing "example.com")
    (secret_of env_refusing) = Ok 422 /\
  422 <> 201 /\
  let r := run (new_email env_refusing 7) db_example in
  db_after r = db_example /\
  outcome r = Ok tt /\
  trace_of r = new_email_calls env_refusing "example.com" ++ [failure_message] /\
  never store_access (trace_of r).
Proof.
  split; [reflexivity|]. split; [reflexivity|]. split; [discriminate|].
  apply (C2_provider_failure_persists_nothing env_refusing 7 db_example
           "example.com" [] 422); [reflexivity|reflexivity|discriminate].
Defined.

(** C5 at a provider that lists [example.com] first. *)
Lemma C5_address_and_secret_witness :
  get_domains env_accepting = Ok ["example.com"%string] /\
  exists local_part secret : string,
    posted (trace_of (run (new_email env_accepting 7) db_example)) =
      [((local_part ++ "@" ++ "example.com")%string, secret)] /\
    String.length local_part = 10%nat /\ all_chars is_lower local_part = true /\
    String.length secret = 16%nat /\ all_chars is_lower secret = true.
Proof.
  split; [reflexivity|].
  destruct (C5_address_and_secret_shape env_accepting 7 db_example "example.com" []
              eq_refl)
    as (l & s & H1 & H2 & H3 & H4 & H5 & _).
  exists l, s. repeat split; assumption.
Defined.

(** ** Runs of the model *)

(** A user never seen before sends [/start] while the oracle reports
    [left]: the record is created unverified; the reply is the one of lines
    80-83 with its parenthesis closed. *)
Example start_unknown_not_member :
  run (start cfg_example env_accepting 9) db_example =
  (Ok tt,
   mkWorld
     (mkDb [mkUser 1 7 900 false; mkUser 2 8 950 true; mkUser 3 9 1000 false] [])
     [EvSessionOpen; EvQueryUserFirst 9; EvCommit;
      EvGetChatMember (Some "@gate"%string) 9;
      EvReplyText "Please join our channel to use this bot!"
        (Some [[UrlButton "Join Channel" "https://t.me/@gate"];
               [CallbackButton "Verify" "verify"]]);
      EvSessionClose] 0%nat).
Proof. vm_compute. reflexivity. Qed.

(** The known user 7 presses [Verify] once the oracle reports [member]. *)
Example verify_known_member :
  run (verify cfg_example env_member 7 true) db_example =
  (Ok tt,
   mkWorld (mkDb [mkUser 1 7 900 true; mkUser 2 8 950 true] [])
     [EvAnswer; EvSessionOpen; EvQueryUserFirst 7;
      EvGetChatMember (Some "@gate"%string) 7; EvCommit;
      EvEditMessageText "Verification successful!" None None;
      EvReplyText "Main Menu:" (Some main_menu); EvSessionClose] 0%nat).
Proof. vm_compute. reflexivity. Qed.

(** A user without a record presses [Verify] while being a member. *)
Example verify_unknown_member :
  run (verify cfg_example env_member 9 true) db_example =
  (Raise AttributeError,
   mkWorld db_example
     [EvAnswer; EvSessionOpen; EvQueryUserFirst 9;
      EvGetChatMember (Some "@gate"%string) 9] 0%nat).
Proof. vm_compute. reflexivity. Qed.

(** The oracle raises: the gate logs and denies. *)
Example is_member_oracle_raises :
  run (is_member cfg_example
         (mkEnv 0 (fun _ => Raise (ExternalError "Timed out")) (Ok []) (fun _ _ => Ok 500)
            (fun _ _ => Ok tt) (fun k => k) true) 7) db_example =
  (Ok false,
   mkWorld db_example
     [EvGetChatMember (Some "@gate"%string) 7;
      EvLogError "Error checking membership: Timed out"] 0%nat).
Proof. vm_compute. reflexivity. Qed.

(** The provider lists no domain: indexing the empty list raises before
    any account is requested. *)
Example new_email_no_domain :
  run (new_email
         (mkEnv 0 (fun _ => Ok "member"%string) (Ok []) (fun _ _ => Ok 201)
            (fun _ _ => Ok tt) (fun k => k) true) 8) db_example =
  (Raise IndexError,
   mkWorld db_example [EvAnswer; EvHttpGet "https://api.mail.tm/domains"] 0%nat).
Proof. vm_compute. reflexivity. Qed.

(** The operator 42 broadcasts to the verified users; the send to user 8
    succeeds. *)
Example notify_all_operator :
  run (notify_all cfg_example env_accepting 42 ["hello"; "all"]%string) db_example =
  (Ok tt,
   mkWorld db_example
     [EvSessionOpen; EvQueryVerifiedAll; EvSessionClose;
      EvSendMessage 8 ("ðŸ“¢ Admin Announcement:" ++ nl ++ nl ++ "hello all")%string;
      EvReplyText "Notification sent to 1 users" None] 0%nat).
Proof. vm_compute. reflexivity. Qed.

(** The comparison is on strings: with [ADMIN_ID] set to [042] the caller
    42 is not the operator. *)
Example notify_all_leading_zero :
  run (notify_all (mkConfig (Some "042"%string) None) env_accepting 42 ["hello"%string])
    db_example =
  (Ok tt, mkWorld db_example [] 0%nat).
Proof. vm_compute. reflexivity. Qed.

(** A user never seen before sends [/start] while not a member, joins,
    presses [Verify] and then asks for a mailbox. *)
Example scenario_start_verify_new_email :
  run_all cfg_example
    [(env_accepting, AStart 9); (env_member, AVerify 9 true); (env_member, ANewEmail 9)]
    db_example =
  mkDb [mkUser 1 7 900 false; mkUser 2 8 950 true; mkUser 3 9 1000 true]
       [mkEmailAccount 1 9 "abcdefghij@example.com" "klmnopqrstuvwxyz" 1000].
Proof. vm_compute. reflexivity. Qed.

(** * Further properties of the handlers *)

(** ** The broadcast *)

Lemma send_all_run env message us : forall count w,
  send_all env message us count w =
  (Ok (count + send_count env message us),
   mkWorld (db w) (trace w ++ send_events env message us) (drawn w)).
Proof.
  unfold send_count.
  induction us as [|u us IH]; intros count w.
  - cbn [send_all send_events filter List.length]. unfold ret.
    rewrite app_nil_r, Z.add_0_r. now destruct w.
  - cbn [send_all send_events filter]. unfold bind at 1, emit at 1.
    unfold delivered at 1, announcement.
    destruct (send_message env (telegram_id u) _) as [[]|e].
    + rewrite IH. cbn [db trace drawn List.length app].
      rewrite <- app_assoc. cbn [app]. do 2 f_equal. lia.
    + unfold bind at 1, emit at 1. rewrite IH. cbn [db trace drawn app].
      rewrite <- !app_assoc. cbn [app]. reflexivity.
Qed.

Lemma notify_all_run cfg env uid args d :
  run (notify_all cfg env uid args) d = notify_all_result cfg env uid args d.
Proof.
  unfold run, notify_all, notify_all_result, broadcast_report, reply_outcome,
    message_reply_text.
  destruct (is_operator cfg uid); [|reflexivity]. cbn [negb]. cbv zeta.
  destruct (String.eqb (String.concat " " args) "").
  - destruct (message_present env); reflexivity.
  - unfold session_open, session_close, query_verified_all, reply_text.
    unfold bind at 1, emit at 1. cbn [db trace drawn app].
    unfold bind at 1. unfold bind at 1, emit at 1. cbn [db trace drawn app].
    unfold bind at 1, get_db at 1, ret at 1. cbn [db trace drawn app].
    unfold bind at 1, emit at 1. cbn [db trace drawn app].
    unfold bind at 1. rewrite send_all_run. cbn [db trace drawn app].
    rewrite Z.add_0_l.
    destruct (message_present env).
    + unfold emit. cbn [db trace drawn]. reflexivity.
    + unfold raise. rewrite app_nil_r. reflexivity.
Qed.

Lemma sent_to_app t1 t2 : sent_to (t1 ++ t2) = sent_to t1 ++ sent_to t2.
Proof.
  induction t1 as [|e t1 IH]; [reflexivity|].
  destruct e; cbn [app sent_to]; rewrite ?IH; reflexivity.
Qed.

Lemma sent_to_send_events env message us :
  sent_to (send_events env message us) =
  map (fun u => (telegram_id u, announcement message)) us.
Proof.
  induction us as [|u us IH]; [reflexivity|].
  cbn [send_events sent_to map]. rewrite sent_to_app, IH.
  destruct (send_message env _ _); reflexivity.
Qed.

Lemma filter_length_le {A} (f : A -> bool) l :
  (List.length (filter f l) <= List.length l)%nat.
Proof.
  induction l as [|x l IH]; simpl; [lia|].
  destruct (f x); simpl; lia.
Qed.

Lemma never_send_events env message us (P : Event -> Prop) :
  (forall c t, ~ P (EvSendMessage c t)) -> (forall m, ~ P (EvLogError m)) ->
  never P (send_events env message us).
Proof.
  intros H1 H2. unfold never.
  induction us as [|u us IH]; [constructor|].
  cbn [send_events]. constructor; [apply H1|].
  apply Forall_app. split; [|exact IH].
  destruct (send_message env _ _); repeat constructor. apply H2.
Qed.

(** X1: a broadcast by the operator with a non-empty message never changes
    the database.  It sends the announcement once to every user whose
    record is verified, in table order, and to nobody else; a send that
    raises does not stop the loop.  If the command carries its message the
    handler returns normally and its last event is the reply reporting the
    number of sends that succeeded, which is at most the number of verified
    users; if the command was sent by editing a message, the reply raises
    [AttributeError] after all the sends and nothing is reported. *)
Theorem X1_notify_all_reaches_verified_users (cfg : Config) (env : Env) (uid : Z)
    (args : list string) (d : Db) :
  ADMIN_ID cfg = Some (str uid) ->
  String.concat " " args <> ""%string ->
  let r := run (notify_all cfg env uid args) d in
  let message := String.concat " " args in
  let verified := filter is_verified (users d) in
  db_after r = d /\
  sent_to (trace_of r) = map (fun u => (telegram_id u, announcement message)) verified /\
  (forall u, In u (users d) -> is_verified u = false ->
     NoDup (map telegram_id (users d)) ->
     ~ In (telegram_id u) (map fst (sent_to (trace_of r)))) /\
  (message_present env = true ->
     outcome r = Ok tt /\
     exists t,
       trace_of r =
       t ++ [EvReplyText
               ("Notification sent to " ++
                str (Z.of_nat (List.length (filter (delivered env message) verified))) ++
                " users")%string None]) /\
  (message_present env = false ->
     outcome r = Raise AttributeError /\ never shown (trace_of r)) /\
  (List.length (filter (delivered env message) verified) <= List.length verified)%nat.
Proof.
  intros Hop Hmsg. cbv zeta. unfold outcome, db_after, trace_of.
  rewrite notify_all_run. unfold notify_all_result, reply_outcome.
  apply is_operator_iff in Hop. rewrite Hop. cbv zeta.
  apply String.eqb_neq in Hmsg. rewrite Hmsg. cbn [fst snd db trace].
  set (message := String.concat " " args).
  set (verified := filter is_verified (users d)).
  set (tail := if message_present env
               then [broadcast_report (send_count env message verified)] else []).
  assert (Htail : sent_to tail = []) by (subst tail; destruct (message_present env); reflexivity).
  assert (Hsent : sent_to
            ([EvSessionOpen; EvQueryVerifiedAll; EvSessionClose] ++
             send_events env message verified ++ tail) =
          map (fun u => (telegram_id u, announcement message)) verified).
  { rewrite !sent_to_app, sent_to_send_events, Htail. cbn [sent_to app].
    now rewrite app_nil_r. }
  split; [reflexivity|]. split; [exact Hsent|].
  split; [|split; [|split]].
  - intros u Hu Hf Hnd Hin. rewrite Hsent, map_map in Hin. cbn [fst] in Hin.
    apply in_map_iff in Hin as (v & Hv & Hin).
    apply filter_In in Hin as [Hin Hver].
    assert (v = u).
    { pose proof (find_user_unique _ _ _ Hnd Hin Hv) as E1.
      pose proof (find_user_unique _ _ _ Hnd Hu eq_refl) as E2. congruence. }
    congruence.
  - intros Hmp. subst tail. rewrite Hmp. split; [reflexivity|].
    exists ([EvSessionOpen; EvQueryVerifiedAll; EvSessionClose] ++
            send_events env message verified).
    rewrite <- app_assoc. reflexivity.
  - intros Hmp. subst tail. rewrite Hmp. split; [reflexivity|].
    rewrite app_nil_r, never_app. split.
    + repeat constructor; cbn; tauto.
    + apply never_send_events; intros; cbn; tauto.
  - apply filter_length_le.
Qed.

(** X2: the operator calling [notify_all] with no message text (no
    arguments, or arguments that join to the empty string) opens no
    session, sends nothing to any user and leaves the database as it was.
    If the command carries its message the only effect is the usage line;
    if it was sent by editing a message, the reply raises [AttributeError]
    and there is no effect at all. *)
Theorem X2_notify_all_empty_message (cfg : Config) (env : Env) (uid : Z)
    (args : list string) (d : Db) :
  ADMIN_ID cfg = Some (str uid) ->
  String.concat " " args = ""%string ->
  run (notify_all cfg env uid args) d =
  if message_present env then
    (Ok tt, mkWorld d [EvReplyText "Usage: /notifyall <message>" None] 0%nat)
  else (Raise AttributeError, mkWorld d [] 0%nat).
Proof.
  intros Hop Hmsg. rewrite notify_all_run. unfold notify_all_result, reply_outcome.
  apply is_operator_iff in Hop. rewrite Hop. cbv zeta.
  rewrite Hmsg. cbn [String.eqb]. destruct (message_present env); reflexivity.
Qed.

(** ** The paths of [new_email] *)

(** X3: when the provider lists a domain, answers the account request with
    201 and the address is not yet stored, [new_email] returns normally and
    appends exactly one mailbox row.  The row belongs to the caller, is
    stamped with the current time, has a key and an address no other row
    has, and holds exactly the address and password that were sent to the
    provider; the address then shown to the user is the stored one.  The
    [users] table is untouched. *)
Theorem X3_new_email_success (env : Env) (uid : Z) (d : Db)
    (domain : string) (ds : list string) :
  get_domains env = Ok (domain :: ds) ->
  post_accounts env (address_of env domain) (secret_of env) = Ok 201 ->
  ~ In (address_of env domain) (map email (emails d)) ->
  let r := run (new_email env uid) d in
  exists row : EmailAccount,
    outcome r = Ok tt /\
    users (db_after r) = users d /\
    emails (db_after r) = emails d ++ [row] /\
    user_id row = uid /\
    created_at row = now env /\
    ~ In (email_id row) (map email_id (emails d)) /\
    ~ In (email row) (map email (emails d)) /\
    posted (trace_of r) = [(email row, password row)] /\
    exists t,
      trace_of r =
      t ++ [EvSessionOpen; EvCommit; EvSessionClose;
            EvEditMessageText ("Your new email: `" ++ email row ++ "`")%string None
              (Some "Markdown"%string)].
Proof.
  intros Hdom Hpost Hfree. cbv zeta.
  unfold outcome, db_after, trace_of. rewrite new_email_run.
  unfold new_email_result. rewrite Hdom. cbv zeta. rewrite Hpost.
  rewrite (email_not_taken _ _ Hfree). cbn [Z.eqb Pos.eqb fst snd db trace users emails].
  exists (new_account env uid domain (emails d)).
  unfold new_account, address_message; cbn [user_id created_at email_id email password].
  split; [reflexivity|]. split; [reflexivity|]. split; [reflexivity|].
  split; [reflexivity|]. split; [reflexivity|].
  split; [apply fresh_id_fresh|]. split; [exact Hfree|].
  split; [reflexivity|]. eexists. reflexivity.
Qed.

(** X4: when the provider's domain list is empty, or fetching it raises,
    [new_email] raises ([IndexError] for the empty list, the fetch's own
    exception otherwise) right after the fetch: no random string is drawn,
    no account is requested, the database is as it was and the user is
    shown nothing. *)
Theorem X4_new_email_without_domain (env : Env) (uid : Z) (d : Db) :
  get_domains env = Ok [] \/ (exists e, get_domains env = Raise e) ->
  let r := run (new_email env uid) d in
  (exists e, outcome r = Raise e /\
     (get_domains env = Ok [] -> e = IndexError) /\
     (forall e', get_domains env = Raise e' -> e = e')) /\
  db_after r = d /\
  trace_of r = [EvAnswer; EvHttpGet (MAIL_API ++ "/domains")%string] /\
  posted (trace_of r) = [] /\
  drawn (snd r) = 0%nat.
Proof.
  intros H. cbv zeta. unfold outcome, db_after, trace_of. rewrite new_email_run.
  unfold new_email_result. cbv zeta.
  destruct H as [H|[e H]]; rewrite H; cbn [fst snd db trace drawn].
  - split; [|repeat split]. exists IndexError. repeat split. discriminate.
  - split; [|repeat split]. exists e. split; [reflexivity|]. split; [discriminate|].
    intros e' He'. congruence.
Qed.

Lemma opens_app t1 t2 : opens (t1 ++ t2) = (opens t1 + opens t2)%nat.
Proof.
  induction t1 as [|e t1 IH]; [reflexivity|].
  destruct e; cbn [app opens]; rewrite ?IH; reflexivity.
Qed.

Lemma closes_app t1 t2 : closes (t1 ++ t2) = (closes t1 + closes t2)%nat.
Proof.
  induction t1 as [|e t1 IH]; [reflexivity|].
  destruct e; cbn [app closes]; rewrite ?IH; reflexivity.
Qed.

(** X5: when the provider has created the account (status 201) but the
    address is already stored, the commit violates the unique constraint on
    [email]: [new_email] raises [IntegrityError] with the database as it
    was, although the account request was sent.  The user is shown no
    message and the session that was opened is not closed. *)
Theorem X5_new_email_address_taken (env : Env) (uid : Z) (d : Db)
    (domain : string) (ds : list string) :
  get_domains env = Ok (domain :: ds) ->
  post_accounts env (address_of env domain) (secret_of env) = Ok 201 ->
  In (address_of env domain) (map email (emails d)) ->
  let r := run (new_email env uid) d in
  outcome r = Raise IntegrityError /\
  db_after r = d /\
  posted (trace_of r) = [(address_of env domain, secret_of env)] /\
  trace_of r = new_email_calls env domain ++ [EvSessionOpen] /\
  opens (trace_of r) = 1%nat /\ closes (trace_of r) = 0%nat /\
  never (fun e => exists text m p, e = EvEditMessageText text m p) (trace_of r).
Proof.
  intros Hdom Hpost Htaken. cbv zeta.
  unfold outcome, db_after, trace_of. rewrite new_email_run.
  unfold new_email_result. rewrite Hdom. cbv zeta. rewrite Hpost.
  apply email_taken_iff in Htaken. rewrite Htaken.
  cbn [Z.eqb Pos.eqb fst snd db trace]. unfold new_email_calls.
  repeat split.
  repeat constructor; intros (t & m & p & H); discriminate.
Qed.

Lemma X3_new_email_success_witness :
  get_domains env_accepting = Ok ["example.com"%string] /\
  ~ In (address_of env_accepting "example.com") (map email (emails db_example)) /\
  exists row : EmailAccount,
    emails (db_after (run (new_email env_accepting 8) db_example)) =
      emails db_example ++ [row] /\
    user_id row = 8 /\
    posted (trace_of (run (new_email env_accepting 8) db_example)) =
      [(email row, password row)].
Proof.
  split; [reflexivity|]. split; [intros []|].
  destruct (X3_new_email_success env_accepting 8 db_example "example.com" []
              eq_refl eq_refl (fun H : False => H))
    as (row & _ & _ & H1 & H2 & _ & _ & _ & H3 & _).
  exists row. repeat split; assumption.
Defined.

Lemma X4_new_email_without_domain_witness :
  get_domains env_no_domain = Ok [] /\
  db_after (run (new_email env_no_domain 8) db_example) = db_example /\
  posted (trace_of (run (new_email env_no_domain 8) db_example)) = [].
Proof.
  split; [reflexivity|].
  destruct (X4_new_email_without_domain env_no_domain 8 db_example
              (or_introl eq_refl))
    as (_ & H1 & _ & H2 & _).
  split; assumption.
Defined.

Lemma X5_new_email_address_taken_witness :
  In (address_of env_accepting "example.com") (map email (emails db_taken)) /\
  outcome (run (new_email env_accepting 7) db_taken) = Raise IntegrityError /\
  db_after (run (new_email env_accepting 7) db_taken) = db_taken.
Proof.
  assert (H : In (address_of env_accepting "example.com") (map email (emails db_taken))).
  { left. vm_compute. reflexivity. }
  split; [exact H|].
  destruct (X5_new_email_address_taken env_accepting 7 db_taken "example.com" []
              eq_refl eq_refl H)
    as (H1 & H2 & _).
  split; assumption.
Defined.

Lemma X1_notify_all_witness :
  ADMIN_ID cfg_example = Some (str 42) /\
  String.concat " " ["hello"%string] <> ""%string /\
  sent_to (trace_of (run (notify_all cfg_example env_accepting 42 ["hello"%string])
                       db_example)) =
    [(8, announcement "hello")].
Proof.
  assert (H1 : ADMIN_ID cfg_example = Some (str 42)) by (vm_compute; reflexivity).
  assert (H2 : String.concat " " ["hello"%string] <> ""%string)
    by (vm_compute; discriminate).
  split; [exact H1|]. split; [exact H2|].
  destruct (X1_notify_all_reaches_verified_users cfg_example env_accepting 42
              ["hello"%string] db_example H1 H2)
    as (_ & H & _).
  exact H.
Defined.

Lemma X2_notify_all_empty_message_witness :
  ADMIN_ID cfg_example = Some (str 42) /\
  String.concat " " [] = ""%string /\
  run (notify_all cfg_example env_accepting 42 []) db_example =
  (Ok tt, mkWorld db_example [EvReplyText "Usage: /notifyall <message>" None] 0%nat).
Proof.
  assert (H1 : ADMIN_ID cfg_example = Some (str 42)) by (vm_compute; reflexivity).
  split; [exact H1|]. split; [reflexivity|].
  exact (X2_notify_all_empty_message cfg_example env_accepting 42 [] db_example
           H1 eq_refl).
Defined.

(** ** The key constraints of both tables *)

Lemma wf_store_handle cfg env a d :
  wf_store d -> wf_store (db_after (run (handle cfg env a) d)).
Proof.
  intros (Hu & Hid & Hem). split.
  - now apply wf_handle.
  - assert (Hsame : emails (db_after (run (handle cfg env a) d)) = emails d ->
              NoDup (map email_id (emails (db_after (run (handle cfg env a) d)))) /\
              NoDup (map email (emails (db_after (run (handle cfg env a) d))))).
    { intros E. rewrite E. now split. }
    destruct a as [uid|uid hm|uid|uid|uid|uid args];
      try (apply Hsame;
           apply (same_emails_handle cfg env _) with (w := mkWorld d [] 0%nat);
           intros; discriminate).
    clear Hsame. cbn [handle]. unfold db_after. rewrite new_email_run. unfold new_email_result.
    cbv zeta.
    destruct (get_domains env) as [[|domain ds]|e]; cbn [snd db]; auto.
    destruct (post_accounts env _ _) as [code|e]; cbn [snd db]; auto.
    destruct (code =? 201); cbn [snd db]; auto.
    destruct (email_taken _ (emails d)) eqn:E; cbn [snd db emails]; auto.
    rewrite !map_app. unfold new_account.
    cbn [map email_id email]. split.
    + apply NoDup_app; [exact Hid|repeat constructor; intros []|].
      intros x Hx [<-|[]]. exact (fresh_id_fresh _ Hx).
    + apply NoDup_app; [exact Hem|repeat constructor; intros []|].
      intros x Hx [<-|[]]. apply email_taken_iff in Hx. congruence.
Qed.

(** X6: the key constraints are an invariant of the handlers.  If no two
    user rows share an [id] or a [telegram_id] and no two mailbox rows share
    an [id] or an [email], the same holds after any sequence of actions,
    whatever the oracle, the provider and the random source answer at each
    step; in particular in every state reached from the empty database. *)
Theorem X6_key_constraints_invariant (cfg : Config) (steps : list (Env * Action)) :
  (forall d, wf_store d -> wf_store (run_all cfg steps d)) /\
  wf_store (run_all cfg steps (mkDb [] [])).
Proof.
  assert (H : forall d, wf_store d -> wf_store (run_all cfg steps d)).
  { induction steps as [|[env a] rest IH]; intros d Hd; simpl; [exact Hd|].
    apply IH, wf_store_handle, Hd. }
  split; [exact H|]. apply H.
  repeat split; constructor.
Qed.

(** ** [start] and [verify] in sequence *)

Lemma start_db_found env uid m d :
  exists u, find_user uid (users (start_db env uid m d)) = Some u /\
            telegram_id u = uid /\
            (m = true -> is_verified u = true) /\
            (m = true ->
             users (start_db env uid m d) =
             mark_verified (id u) (users (start_db env uid m d))).
Proof.
  unfold start_db. destruct (find_user uid (users d)) as [u|] eqn:F.
  - pose proof (find_user_telegram_id _ _ _ F) as Ht.
    destruct m; cbn [users].
    + rewrite find_user_mark_verified, F. cbn [option_map]. rewrite Z.eqb_refl.
      eexists. split; [reflexivity|]. cbn [telegram_id is_verified set_verified id].
      repeat split; auto. intros _. now rewrite mark_verified_idem.
    + exists u. rewrite F. repeat split; auto; discriminate.
  - assert (Hnew : find_user uid (users d ++ [new_user env uid (users d)]) =
                   Some (new_user env uid (users d))).
    { rewrite find_user_app, F. unfold find_user, new_user. cbn [find telegram_id].
      now rewrite Z.eqb_refl. }
    destruct m; cbn [users].
    + rewrite find_user_mark_verified, Hnew. cbn [option_map].
      unfold new_user at 1 2. cbn [id]. rewrite Z.eqb_refl.
      eexists. split; [reflexivity|]. cbn [telegram_id is_verified set_verified id new_user].
      repeat split; auto. intros _. now rewrite mark_verified_idem.
    + exists (new_user env uid (users d)). rewrite Hnew.
      repeat split; auto; discriminate.
Qed.

Lemma start_db_known env uid m d u :
  find_user uid (users d) = Some u ->
  start_db env uid m d =
  if m then mkDb (mark_verified (id u) (users d)) (emails d) else d.
Proof. intros H. unfold start_db. now rewrite H. Qed.

(** X7: the store writes of [start] may be repeated.  A second [start] by
    the same user, at any later time, whatever the gate then answers and
    however either run ends, adds no row, keeps every row's key, owner and
    join date and leaves the mailbox table alone; unless the gate answer
    turned from not-member to member, the database after the second
    [start] is the one after the first. *)
Theorem X7_start_twice (cfg : Config) (env1 env2 : Env) (uid : Z) (d : Db) :
  let d1 := db_after (run (start cfg env1 uid) d) in
  let r2 := run (start cfg env2 uid) d1 in
  let d2 := db_after r2 in
  map id (users d2) = map id (users d1) /\
  map telegram_id (users d2) = map telegram_id (users d1) /\
  map join_date (users d2) = map join_date (users d1) /\
  emails d2 = emails d1 /\
  (member_of (get_chat_member env1 uid) = true \/
   member_of (get_chat_member env2 uid) = false -> d2 = d1).
Proof.
  cbv zeta. unfold db_after. rewrite !start_run. cbv zeta. cbn [snd db].
  set (m1 := member_of (get_chat_member env1 uid)).
  set (m2 := member_of (get_chat_member env2 uid)).
  destruct (start_db_found env1 uid m1 d) as (u & Hu & _ & _ & Hidem).
  set (d1 := start_db env1 uid m1 d) in *.
  rewrite (start_db_known env2 uid m2 d1 u Hu).
  destruct m2; cbn [users emails].
  - rewrite mark_verified_ids, mark_verified_telegram_ids, mark_verified_join_dates.
    repeat split. intros [H|H]; [|discriminate].
    rewrite <- (Hidem H). now destruct d1.
  - repeat split.
Qed.

(** X8: once [start] has run for a user, [verify] by that user cannot fail
    on a missing record: it returns normally whatever the gate answers.  If
    the gate answers member the user's record is verified afterwards and
    the menu is shown; if not, the database is left as [start] left it. *)
Theorem X8_verify_after_start (cfg : Config) (env1 env2 : Env) (uid : Z) (hm : bool)
    (d : Db) :
  let d1 := db_after (run (start cfg env1 uid) d) in
  let r := run (verify cfg env2 uid hm) d1 in
  outcome r = Ok tt /\
  (member_of (get_chat_member env2 uid) = true ->
     In (menu_event hm) (trace_of r) /\
     exists u, find_user uid (users (db_after r)) = Some u /\ is_verified u = true) /\
  (member_of (get_chat_member env2 uid) = false -> db_after r = d1).
Proof.
  cbv zeta. unfold outcome, db_after, trace_of. rewrite start_run. cbv zeta.
  cbn [snd db]. rewrite verify_run.
  destruct (start_db_found env1 uid (member_of (get_chat_member env1 uid)) d)
    as (u & Hu & _). rewrite Hu.
  destruct (member_of (get_chat_member env2 uid)); cbn [fst snd db trace users].
  - split; [reflexivity|]. split; [|discriminate]. intros _. split.
    + apply in_or_app. right. right. right. now left.
    + rewrite find_user_mark_verified, Hu. cbn [option_map]. rewrite Z.eqb_refl.
      eexists. split; reflexivity.
  - split; [reflexivity|]. split; [discriminate|]. reflexivity.
Qed.

(** ** [generate_random_string] in general *)

Lemma letter_eq_iff j k :
  letter j = letter k <-> Nat.modulo j 26 = Nat.modulo k 26.
Proof.
  unfold letter. split; [|now intros ->].
  apply letter_at_inj; apply Nat.mod_upper_bound; discriminate.
Qed.

Lemma draws_string_eq env env' n : forall from,
  draws_string env from n = draws_string env' from n <->
  forall i, (i < n)%nat ->
    Nat.modulo (randbelow env (from + i)) 26 = Nat.modulo (randbelow env' (from + i)) 26.
Proof.
  induction n as [|n IH]; intro from; cbn [draws_string].
  - split; [intros _ i Hi; lia|reflexivity].
  - split.
    + intros H. injection H as Hc Hs. apply letter_eq_iff in Hc.
      intros [|i] Hi.
      * now rewrite Nat.add_0_r.
      * replace (from + S i)%nat with (S from + i)%nat by lia.
        apply (proj1 (IH (S from)) Hs). lia.
    + intros H.
      assert (Hc : letter (randbelow env from) = letter (randbelow env' from)).
      { apply letter_eq_iff. specialize (H 0%nat). rewrite Nat.add_0_r in H.
        apply H. lia. }
      assert (Hs : draws_string env (S from) n = draws_string env' (S from) n).
      { apply IH. intros i Hi.
        replace (S from + i)%nat with (from + S i)%nat by lia. apply H. lia. }
      change (String (letter (randbelow env from)) (draws_string env (S from) n) =
              String (letter (randbelow env' from)) (draws_string env' (S from) n)).
      now rewrite Hc, Hs.
Qed.

(** X10: for every length [n], [generate_random_string] returns a string
    of exactly [n] lowercase letters, consumes exactly [n] draws of the
    random source and touches neither the database nor the trace; for
    length 0 it is the empty string.  Character [i] is the letter of draw
    [i], so two random sources produce the same string exactly when their
    draws agree modulo 26 at each of the [n] positions: different sequences
    of letter indices never give the same string. *)
Theorem X10_generate_random_string (env : Env) (n : nat) (w : World) :
  exists s : string,
    generate_random_string env n w =
      (Ok s, mkWorld (db w) (trace w) (drawn w + n)%nat) /\
    String.length s = n /\
    all_chars is_lower s = true /\
    (n = 0%nat -> s = ""%string) /\
    (forall i, (i < n)%nat ->
       String.get i s = Some (letter (randbelow env (drawn w + i)))) /\
    (forall env',
       fst (generate_random_string env' n w) = Ok s <->
       forall i, (i < n)%nat ->
         Nat.modulo (randbelow env' (drawn w + i)) 26 =
         Nat.modulo (randbelow env (drawn w + i)) 26).
Proof.
  exists (draws_string env (drawn w) n).
  split; [apply generate_random_string_run|].
  split; [apply draws_string_length|].
  split; [apply draws_string_lower|].
  split; [intros ->; reflexivity|].
  split; [intros i Hi; now apply draws_string_get|].
  intros env'. rewrite generate_random_string_run. cbn [fst].
  rewrite <- draws_string_eq. split; [intros H; now injection H|now intros ->].
Qed.

(** ** The operator *)

Lemma to_int_not_nil z :
  Z.to_int z <> Decimal.Pos Decimal.Nil /\ Z.to_int z <> Decimal.Neg Decimal.Nil.
Proof.
  pose proof (DecimalZ.to_of (Z.to_int z)) as H. rewrite DecimalZ.of_to in H.
  split; intros E; rewrite E in H; discriminate H.
Qed.

Lemma str_inj a b : str a = str b -> a = b.
Proof.
  unfold str. intros H.
  apply (f_equal NilZero.int_of_string) in H.
  destruct (to_int_not_nil a) as [Ha1 Ha2], (to_int_not_nil b) as [Hb1 Hb2].
  rewrite !NilZero.isi in H by assumption.
  injection H as H. now apply DecimalZ.to_int_inj.
Qed.

(** X13: there is at most one operator.  Two callers that both pass the
    authorization check of [notify_all] have the same id, because the
    decimal strings of different ids differ; and with [ADMIN_ID] unset
    nobody passes it. *)
Theorem X13_at_most_one_operator (cfg : Config) :
  (forall uid1 uid2,
     is_operator cfg uid1 = true -> is_operator cfg uid2 = true -> uid1 = uid2) /\
  (ADMIN_ID cfg = None -> forall uid, is_operator cfg uid = false) /\
  (forall uid1 uid2, str uid1 = str uid2 -> uid1 = uid2).
Proof.
  split; [|split].
  - intros u1 u2 H1 H2. apply is_operator_iff in H1, H2.
    apply str_inj. congruence.
  - intros H uid. unfold is_operator. now rewrite H.
  - apply str_inj.
Qed.

(** ** Sessions *)

Lemma check_inbox_run d :
  run check_inbox d =
  (Ok tt,
   mkWorld d [EvAnswer; EvEditMessageText "Inbox feature coming soon!" None None] 0%nat).
Proof. reflexivity. Qed.

Lemma delete_email_run d :
  run delete_email d =
  (Ok tt,
   mkWorld d [EvAnswer; EvEditMessageText "Delete feature coming soon!" None None] 0%nat).
Proof. reflexivity. Qed.

Lemma store_events_app t1 t2 :
  store_events (t1 ++ t2) = store_events t1 ++ store_events t2.
Proof.
  induction t1 as [|e t1 IH]; [reflexivity|].
  destruct e; cbn [app store_events]; rewrite ?IH; reflexivity.
Qed.

Lemma store_events_gate_events cfg env uid : store_events (gate_events cfg env uid) = [].
Proof. unfold gate_events. destruct (get_chat_member env uid); reflexivity. Qed.

Lemma store_events_send_events env message us :
  store_events (send_events env message us) = [].
Proof.
  induction us as [|u us IH]; [reflexivity|].
  cbn [send_events store_events]. rewrite store_events_app, IH.
  destruct (send_message env _ _); reflexivity.
Qed.

Ltac project_store :=
  rewrite ?store_events_app, ?store_events_gate_events, ?store_events_send_events;
  unfold join_prompt, failure_message, address_message, broadcast_report,
    new_email_calls;
  cbn [store_events app menu_event].

(** Closes a goal on the shape of an explicit list of session events. *)
Ltac session_shape :=
  first
    [ left; reflexivity
    | right;
      match goal with
      | |- exists mid, _ /\ (?s = _ \/ _) =>
          first
            [ exists (removelast (tl s)); split;
              [solve [cbn; repeat constructor]|right; reflexivity]
            | exists (tl s); split;
              [solve [cbn; repeat constructor]|left; reflexivity] ]
      | |- exists mid, _ /\ ?s = _ =>
          exists (removelast (tl s)); split;
          [solve [cbn; repeat constructor]|reflexivity]
      end ].

Ltac session_case :=
  project_store;
  split; [session_shape|first [discriminate|intros _; session_shape]].

(** X11: a handler uses at most one database session and uses it in
    order.  The session events of any run are either none at all, or one
    open followed by queries and commits only, possibly ended by one close:
    nothing is queried or committed outside a session and a session is
    never closed before it was opened or opened twice.  When the handler
    returns normally the session it opened has been closed.  (A handler
    that raises after opening its session leaves it open.) *)
Theorem X11_sessions_closed_on_return (cfg : Config) (env : Env) (a : Action) (d : Db) :
  let r := run (handle cfg env a) d in
  let s := store_events (trace_of r) in
  (s = [] \/
   exists mid, Forall query_or_commit mid /\
     (s = EvSessionOpen :: mid \/ s = EvSessionOpen :: mid ++ [EvSessionClose])) /\
  (outcome r = Ok tt ->
   s = [] \/
   exists mid, Forall query_or_commit mid /\ s = EvSessionOpen :: mid ++ [EvSessionClose]).
Proof.
  cbv zeta. unfold outcome, trace_of.
  destruct a as [uid|uid hm|uid|uid|uid|uid args]; cbn [handle].
  - rewrite start_run. cbv zeta. cbn [fst snd trace].
    unfold start_trace, reply_outcome.
    destruct (find_user uid (users d)), (member_of (get_chat_member env uid)),
      (message_present env); session_case.
  - rewrite verify_run. unfold verify_prefix.
    destruct (member_of (get_chat_member env uid));
      [destruct (find_user uid (users d))|]; cbn [fst snd trace];
      destruct hm; session_case.
  - rewrite new_email_run. unfold new_email_result. cbv zeta.
    destruct (get_domains env) as [[|domain ds]|e]; cbn [fst snd trace];
      try session_case.
    destruct (post_accounts env _ _) as [code|e]; cbn [fst snd trace];
      try session_case.
    destruct (code =? 201); cbn [fst snd trace]; try session_case.
    destruct (email_taken _ (emails d)); cbn [fst snd trace]; session_case.
  - rewrite check_inbox_run. cbn [fst snd trace]. session_case.
  - rewrite delete_email_run. cbn [fst snd trace]. session_case.
  - rewrite notify_all_run. unfold notify_all_result, reply_outcome. cbv zeta.
    destruct (is_operator cfg uid); [|cbn [fst snd trace]; session_case].
    destruct (String.eqb _ _), (message_present env); cbn [fst snd trace];
      session_case.
Qed.

(** ** Which handler talks to which collaborator *)

Ltac never_in_trace :=
  rewrite ?never_app;
  repeat split;
  first
    [ apply never_gate_events; intros; cbn; tauto
    | apply never_send_events; intros; cbn; tauto
    | repeat constructor; cbn; tauto ].

Lemma start_trace_quiet cfg env uid m d :
  never provider_call (start_trace cfg env uid m d) /\
  never direct_message (start_trace cfg env uid m d).
Proof.
  unfold start_trace, join_prompt.
  destruct (find_user uid (users d)), m, (message_present env); split; never_in_trace.
Qed.

Lemma verify_quiet cfg env uid hm d :
  never provider_call (trace_of (run (verify cfg env uid hm) d)) /\
  never direct_message (trace_of (run (verify cfg env uid hm) d)).
Proof.
  unfold trace_of. rewrite verify_run. unfold verify_prefix.
  destruct (member_of (get_chat_member env uid));
    [destruct (find_user uid (users d))|]; cbn [snd trace];
    destruct hm; split; never_in_trace.
Qed.

Lemma new_email_quiet env uid d :
  never oracle_call (trace_of (run (new_email env uid) d)) /\
  never direct_message (trace_of (run (new_email env uid) d)).
Proof.
  unfold trace_of. rewrite new_email_run.
  unfold new_email_result, new_email_calls, failure_message, address_message.
  cbv zeta.
  destruct (get_domains env) as [[|domain ds]|e]; cbn [snd trace];
    try (split; never_in_trace).
  destruct (post_accounts env _ _) as [code|e]; cbn [snd trace];
    try (split; never_in_trace).
  destruct (code =? 201); cbn [snd trace]; try (split; never_in_trace).
  destruct (email_taken _ (emails d)); cbn [snd trace]; split; never_in_trace.
Qed.

Lemma notify_all_quiet cfg env uid args d :
  never provider_call (trace_of (run (notify_all cfg env uid args) d)) /\
  never oracle_call (trace_of (run (notify_all cfg env uid args) d)) /\
  (is_operator cfg uid = false ->
   never direct_message (trace_of (run (notify_all cfg env uid args) d))).
Proof.
  unfold trace_of. rewrite notify_all_run.
  unfold notify_all_result, broadcast_report. cbv zeta.
  destruct (is_operator cfg uid).
  - destruct (String.eqb _ _), (message_present env); cbn [snd trace];
      (split; [|split]); try discriminate; never_in_trace.
  - cbn [snd trace]. repeat split; constructor.
Qed.

(** X12: each collaborator is called by its own handlers only.  A run
    that calls the mailbox provider is a run of [new_email]; a run that
    asks the membership oracle is a run of [start] or [verify]; a run that
    sends a direct message to a user is a run of [notify_all] by the
    operator. *)
Theorem X12_collaborators_by_handler (cfg : Config) (env : Env) (a : Action) (d : Db) :
  let t := trace_of (run (handle cfg env a) d) in
  (Exists provider_call t -> exists uid, a = ANewEmail uid) /\
  (Exists oracle_call t ->
     (exists uid, a = AStart uid) \/ (exists uid hm, a = AVerify uid hm)) /\
  (Exists direct_message t ->
     exists uid args, a = ANotifyAll uid args /\ ADMIN_ID cfg = Some (str uid)).
Proof.
  cbv zeta.
  destruct a as [uid|uid hm|uid|uid|uid|uid args]; cbn [handle].
  - destruct (start_trace_quiet cfg env uid (member_of (get_chat_member env uid)) d)
      as [H1 H2].
    unfold trace_of. rewrite start_run. cbv zeta. cbn [snd trace].
    split; [|split].
    + intros H. exfalso. exact (never_Exists _ _ H1 H).
    + intros _. left. eauto.
    + intros H. exfalso. exact (never_Exists _ _ H2 H).
  - destruct (verify_quiet cfg env uid hm d) as [H1 H2].
    split; [|split].
    + intros H. exfalso. exact (never_Exists _ _ H1 H).
    + intros _. right. eauto.
    + intros H. exfalso. exact (never_Exists _ _ H2 H).
  - destruct (new_email_quiet env uid d) as [H1 H2].
    split; [|split].
    + intros _. eauto.
    + intros H. exfalso. exact (never_Exists _ _ H1 H).
    + intros H. exfalso. exact (never_Exists _ _ H2 H).
  - unfold trace_of. rewrite check_inbox_run. cbn [snd trace].
    split; [|split]; intros H; exfalso; revert H; apply never_Exists;
      repeat constructor; cbn; tauto.
  - unfold trace_of. rewrite delete_email_run. cbn [snd trace].
    split; [|split]; intros H; exfalso; revert H; apply never_Exists;
      repeat constructor; cbn; tauto.
  - destruct (notify_all_quiet cfg env uid args d) as (H1 & H2 & H3).
    split; [|split].
    + intros H. exfalso. exact (never_Exists _ _ H1 H).
    + intros H. exfalso. exact (never_Exists _ _ H2 H).
    + intros H. exists uid, args. split; [reflexivity|].
      apply is_operator_iff.
      destruct (is_operator cfg uid); [reflexivity|].
      exfalso. exact (never_Exists _ _ (H3 eq_refl) H).
Qed.

(** ** Where rows come from *)

Lemma In_mark_verified pk us u :
  In u (mark_verified pk us) ->
  exists u0, In u0 us /\ id u0 = id u /\ telegram_id u0 = telegram_id u /\
             join_date u0 = join_date u.
Proof.
  unfold mark_verified. intros H. apply in_map_iff in H as (u0 & <- & H0).
  exists u0. destruct (id u0 =? pk); repeat split; auto.
Qed.

Lemma users_step cfg env a d u :
  In u (users (db_after (run (handle cfg env a) d))) ->
  (exists u0, In u0 (users d) /\ id u0 = id u /\ telegram_id u0 = telegram_id u /\
              join_date u0 = join_date u) \/
  (a = AStart (telegram_id u) /\ join_date u = now env).
Proof.
  assert (Hsame : users (db_after (run (handle cfg env a) d)) = users d ->
            In u (users (db_after (run (handle cfg env a) d))) ->
            exists u0, In u0 (users d) /\ id u0 = id u /\
              telegram_id u0 = telegram_id u /\ join_date u0 = join_date u).
  { intros E H. rewrite E in H. exists u. auto. }
  destruct a as [uid|uid hm|uid|uid|uid|uid args];
    try (intros H; left; apply Hsame; [|exact H];
         apply (same_users_handle cfg env _) with (w := mkWorld d [] 0%nat);
         intros; discriminate).
  - clear Hsame. cbn [handle]. unfold db_after. rewrite start_run. cbv zeta.
    cbn [snd db]. unfold start_db.
    assert (Hnew : forall v, In v (users d ++ [new_user env uid (users d)]) ->
              (exists u0, In u0 (users d) /\ id u0 = id v /\
                 telegram_id u0 = telegram_id v /\ join_date u0 = join_date v) \/
              (telegram_id v = uid /\ join_date v = now env)).
    { intros v Hv. apply in_app_or in Hv as [Hv|[<-|[]]].
      - left. exists v. auto.
      - right. split; reflexivity. }
    destruct (find_user uid (users d)) as [v|];
      destruct (member_of (get_chat_member env uid)); cbn [users]; intros H.
    + left. eapply In_mark_verified; eauto.
    + left. exists u. auto.
    + apply In_mark_verified in H as (u0 & H0 & E1 & E2 & E3).
      destruct (Hnew u0 H0) as [(u1 & H1 & F1 & F2 & F3)|[F1 F2]].
      * left. exists u1. repeat split; congruence.
      * right. split; [f_equal|]; congruence.
    + destruct (Hnew u H) as [H'|[F1 F2]]; [now left|].
      right. split; [f_equal|]; congruence.
  - clear Hsame. cbn [handle]. unfold db_after. rewrite verify_run.
    destruct (member_of (get_chat_member env uid));
      [destruct (find_user uid (users d)) as [v|]|]; cbn [snd db users]; intros H.
    + left. eapply In_mark_verified; eauto.
    + left. exists u. auto.
    + left. exists u. auto.
Qed.

Lemma emails_step cfg env a d e :
  In e (emails (db_after (run (handle cfg env a) d))) ->
  In e (emails d) \/ (a = ANewEmail (user_id e) /\ created_at e = now env).
Proof.
  assert (Hsame : emails (db_after (run (handle cfg env a) d)) = emails d ->
            In e (emails (db_after (run (handle cfg env a) d))) -> In e (emails d)).
  { intros E H. now rewrite E in H. }
  destruct a as [uid|uid hm|uid|uid|uid|uid args];
    try (intros H; left; apply Hsame; [|exact H];
         apply (same_emails_handle cfg env _) with (w := mkWorld d [] 0%nat);
         intros; discriminate).
  clear Hsame. cbn [handle]. unfold db_after. rewrite new_email_run. unfold new_email_result.
  cbv zeta.
  destruct (get_domains env) as [[|domain ds]|x]; cbn [snd db]; auto.
  destruct (post_accounts env _ _) as [code|x]; cbn [snd db]; auto.
  destruct (code =? 201); cbn [snd db]; auto.
  destruct (email_taken _ (emails d)); cbn [snd db emails]; auto.
  intros H. apply in_app_or in H as [H|[<-|[]]]; [now left|].
  right. split; reflexivity.
Qed.

(** X14: rows are created for the caller only.  After any sequence of
    actions, a mailbox row that was not there at the beginning belongs to
    a user who ran [new_email] in the sequence and is stamped with the time
    of that run; a user row continues a row of the beginning (same key,
    owner and join date) or belongs to a user who ran [start] in the
    sequence and has the time of that run as its join date. *)
Theorem X14_rows_belong_to_callers (cfg : Config) (steps : list (Env * Action)) (d : Db) :
  let d' := run_all cfg steps d in
  (forall e, In e (emails d') ->
     In e (emails d) \/
     exists env, In (env, ANewEmail (user_id e)) steps /\ created_at e = now env) /\
  (forall u, In u (users d') ->
     (exists u0, In u0 (users d) /\ id u0 = id u /\ telegram_id u0 = telegram_id u /\
                 join_date u0 = join_date u) \/
     exists env, In (env, AStart (telegram_id u)) steps /\ join_date u = now env).
Proof.
  cbv zeta. revert d.
  induction steps as [|[env a] rest IH]; intros d; cbn [run_all].
  - split.
    + intros e H. now left.
    + intros u H. left. exists u. auto.
  - destruct (IH (db_after (run (handle cfg env a) d))) as [IHe IHu]. split.
    + intros e H. destruct (IHe e H) as [H1|(env' & H1 & H2)].
      * destruct (emails_step _ _ _ _ _ H1) as [H2|[-> H2]]; [now left|].
        right. exists env. split; [now left|exact H2].
      * right. exists env'. split; [now right|exact H2].
    + intros u H. destruct (IHu u H) as [(u0 & H0 & E1 & E2 & E3)|(env' & H1 & H2)].
      * destruct (users_step _ _ _ _ _ H0) as [(u1 & H1 & F1 & F2 & F3)|[-> F]].
        -- left. exists u1. repeat split; congruence.
        -- right. exists env. split; [left; congruence|congruence].
      * right. exists env'. split; [now right|exact H2].
Qed.
